(** * Days-to-hire statistics: the aggregation job and the read API

    A shallow embedding of [home_task/cli.py] (the batch job that rebuilds
    the table [days_to_hire_statistics] from [job_posting]) and of
    [home_task/api.py] (the FastAPI handlers that read it), with the
    PostgreSQL operations the two modules rely on written out as list
    functions.

    Conventions.
    - Python [str] values are [string]s; a character stands for a code point
      below 256.
    - SQL [double precision] and [numeric] values are exact rationals, kept in
      lowest terms ([Qred]) so that Leibniz equality compares them.
    - A table is the list of its rows in physical order; where SQL leaves the
      order of rows to the engine (ties of a window's ORDER BY, a SELECT
      without ORDER BY), the model takes them in that order.
    - A datastore call can fail: a session carries a _fault plan_, the list of
      outcomes of its successive calls ([None]: the call goes through,
      [Some e]: it raises an exception whose text is [e]). *)

From Stdlib Require Import List String Ascii Bool Arith ZArith QArith Qround.
From Stdlib Require Import Lia Lqa Permutation Sorted.
Import ListNotations.

Local Open Scope string_scope.
Local Open Scope list_scope.
Local Open Scope Z_scope.

(* ===================================================================== *)
(** * Python values                                                       *)
(* ===================================================================== *)

Module py.

(** [str.isspace] for one character, on the code points below 256:
    TAB..CR, FS..US and SPACE, NEL (0x85) and NBSP (0xA0). *)
Definition isspace (c : ascii) : bool :=
  let n := nat_of_ascii c in
  ((9 <=? n) && (n <=? 13) || (28 <=? n) && (n <=? 32)
   || (n =? 133) || (n =? 160))%nat.

Fixpoint lstrip (s : string) : string :=
  match s with
  | EmptyString => EmptyString
  | String c s' => if isspace c then lstrip s' else s
  end.

Fixpoint rstrip (s : string) : string :=
  match s with
  | EmptyString => EmptyString
  | String c s' =>
      match rstrip s' with
      | EmptyString => if isspace c then EmptyString else String c EmptyString
      | t => String c t
      end
  end.

(** [s.strip()] *)
Definition strip (s : string) : string := lstrip (rstrip s).

(** A string of whitespace only; the empty string is one. *)
Fixpoint blank (s : string) : bool :=
  match s with
  | EmptyString => true
  | String c s' => isspace c && blank s'
  end.

(** Truth value of a [str]: only the empty string is falsy. *)
Definition truthy (s : string) : bool :=
  match s with EmptyString => false | String _ _ => true end.

(** Truth value of an [Optional[str]]: [None] and the empty string are
    falsy. *)
Definition truthy_opt (o : option string) : bool :=
  match o with None => false | Some s => truthy s end.

(** Exceptions: [HTTPException(status_code, detail)], and every other
    exception [e], of which the code only uses [str(e)]. *)
Inductive Exception : Type :=
| HTTPException (status_code : Z) (detail : string)
| Error (msg : string).

Inductive Outcome (A : Type) : Type :=
| Returned (a : A)
| Raised (e : Exception).
Arguments Returned {A} a.
Arguments Raised {A} e.

(** [str(e)].  (The handlers that use it catch datastore exceptions only; an
    [HTTPException] is given the text of its detail.) *)
Definition str (e : Exception) : string :=
  match e with
  | Error msg => msg
  | HTTPException _ detail => detail
  end.

End py.

(* ===================================================================== *)
(** * The datastore                                                       *)
(* ===================================================================== *)

Module db.
Import py.

(** A row of [job_posting] (migration 991ecb2bf269): [country_code] and
    [days_to_hire] are nullable. *)
Record JobPosting : Type := mkJobPosting {
  id : string;
  title : string;
  standard_job_id : string;
  country_code : option string;
  days_to_hire : option Z
}.

(** [days_to_hire IS NOT NULL] *)
Definition has_days (p : JobPosting) : bool :=
  match days_to_hire p with Some _ => true | None => false end.

(** A row of [days_to_hire_statistics] (migration 1c3013ad5eae): [id] is the
    autoincrement primary key, [country_code] is the only nullable column. *)
Record StatisticsRow : Type := mkStatisticsRow {
  row_id : nat;
  row_standard_job_id : string;
  row_country_code : option string;
  row_min_days : Q;
  row_avg_days : Q;
  row_max_days : Q;
  row_job_postings_number : Z
}.

(** Modelled from the spec: [home_task/models.py] is not among the sources.
    The ORM class [DaysToHireStatistics] has the fields its constructor is
    given in [cli.py], which are the columns of the migration; a field of a
    Python object may be [None]. *)
Record DaysToHireStatistics : Type := mkDaysToHireStatistics {
  obj_id : option nat;
  obj_standard_job_id : string;
  obj_country_code : option string;
  obj_min_days : option Q;
  obj_avg_days : option Q;
  obj_max_days : option Q;
  obj_job_postings_number : Z
}.

(** The durable state: what has been committed.  The sequence behind the
    autoincrement [id] is part of it. *)
Record Database : Type := mkDatabase {
  job_posting : list JobPosting;
  days_to_hire_statistics : list StatisticsRow;
  id_seq : nat
}.

Definition FaultPlan : Type := list (option string).

(** A session of [sessionmaker(autocommit=False, autoflush=False)]: the
    durable database, the statistics table as the open transaction sees it,
    the objects added and not yet flushed, the sequence value (a sequence is
    not transactional), and the rest of the fault plan. *)
Record Session : Type := mkSession {
  store : Database;
  txn : list StatisticsRow;
  pending : list DaysToHireStatistics;
  seq : nat;
  plan : FaultPlan
}.

(** The fault of the [n]-th datastore call (from 0) of a session, if the
    plan has one there. *)
Definition fault_at (n : nat) (p : FaultPlan) : option string :=
  match nth_error p n with
  | Some (Some e) => Some e
  | _ => None
  end.

(** The content of a statistics row: every column but the surrogate [id]. *)
Definition record_of (r : StatisticsRow)
  : string * option string * Q * Q * Q * Z :=
  (row_standard_job_id r, row_country_code r,
   row_min_days r, row_avg_days r, row_max_days r,
   row_job_postings_number r).

(** The key of a statistics row, and of an object not yet inserted. *)
Definition row_key (r : StatisticsRow) : string * option string :=
  (row_standard_job_id r, row_country_code r).

Definition obj_key (o : DaysToHireStatistics) : string * option string :=
  (obj_standard_job_id o, obj_country_code o).

(** Computations on a session that return or raise. *)
Definition M (A : Type) : Type := Session -> Outcome A * Session.

Definition ret {A} (a : A) : M A := fun s => (Returned a, s).
Definition raise {A} (e : Exception) : M A := fun s => (Raised e, s).
Definition bind {A B} (m : M A) (k : A -> M B) : M B :=
  fun s => match m s with
           | (Returned a, s') => k a s'
           | (Raised e, s') => (Raised e, s')
           end.
(** [try: m except Exception as e: h e] *)
Definition try_except {A} (m : M A) (h : Exception -> M A) : M A :=
  fun s => match m s with
           | (Returned a, s') => (Returned a, s')
           | (Raised e, s') => h e s'
           end.

Declare Scope session_scope.
Delimit Scope session_scope with session.
Notation "x <- m ;; k" := (bind m (fun x => k))
  (at level 61, m at next level, right associativity) : session_scope.
Notation "m ;; k" := (bind m (fun _ => k))
  (at level 61, right associativity) : session_scope.

(** [get_session()] *)
Definition get_session (d : Database) (p : FaultPlan) : Session :=
  {| store := d; txn := days_to_hire_statistics d; pending := [];
     seq := id_seq d; plan := p |}.

(** One round trip to the datastore: consumes one entry of the fault plan. *)
Definition db_call : M unit :=
  fun s =>
    match plan s with
    | [] => (Returned tt, s)
    | None :: p =>
        (Returned tt, {| store := store s; txn := txn s; pending := pending s;
                         seq := seq s; plan := p |})
    | Some e :: p =>
        (Raised (Error e), {| store := store s; txn := txn s;
                              pending := pending s; seq := seq s; plan := p |})
    end.

(** [session.execute(text("SELECT ... FROM days_to_hire_statistics WHERE ..."))]:
    the rows of the open transaction that satisfy the condition. *)
Definition execute_select (where_ : StatisticsRow -> bool)
  : M (list StatisticsRow) :=
  (db_call ;; fun s => (Returned (filter where_ (txn s)), s))%session.

(** [session.execute(text("DELETE FROM days_to_hire_statistics"))] *)
Definition execute_delete : M unit :=
  (db_call ;;
   fun s => (Returned tt, {| store := store s; txn := []; pending := pending s;
                             seq := seq s; plan := plan s |}))%session.

(** A query over [job_posting], which no transaction of this program
    writes. *)
Definition execute_query {A} (q : list JobPosting -> A) : M A :=
  (db_call ;; fun s => (Returned (q (job_posting (store s))), s))%session.

(** [session.add_all(objs)]: no datastore call. *)
Definition add_all (objs : list DaysToHireStatistics) : M unit :=
  fun s => (Returned tt, {| store := store s; txn := txn s;
                            pending := pending s ++ objs;
                            seq := seq s; plan := plan s |}).

(** The INSERT of one object: the columns [min_days], [avg_days] and
    [max_days] are NOT NULL, the [id] comes from the sequence. *)
Definition insert_row (n : nat) (o : DaysToHireStatistics)
  : option StatisticsRow :=
  match obj_min_days o, obj_avg_days o, obj_max_days o with
  | Some mn, Some av, Some mx =>
      Some {| row_id := n;
              row_standard_job_id := obj_standard_job_id o;
              row_country_code := obj_country_code o;
              row_min_days := mn; row_avg_days := av; row_max_days := mx;
              row_job_postings_number := obj_job_postings_number o |}
  | _, _, _ => None
  end.

Fixpoint insert_rows (n : nat) (objs : list DaysToHireStatistics)
  : option (list StatisticsRow) :=
  match objs with
  | [] => Some []
  | o :: objs' =>
      match insert_row n o, insert_rows (S n) objs' with
      | Some r, Some rs => Some (r :: rs)
      | _, _ => None
      end
  end.

Definition IntegrityError : Exception :=
  Error "null value in column violates not-null constraint".

(** The values that a refused flush has drawn from the sequence: the INSERTs
    go in order and each takes its [id] before the NOT NULL columns are
    checked, so that one value is drawn for every object up to and including
    the first that is refused. *)
Fixpoint drawn (objs : list DaysToHireStatistics) : nat :=
  match objs with
  | [] => 0
  | o :: objs' =>
      match insert_row 0 o with
      | Some _ => S (drawn objs')
      | None => 1
      end
  end.

(** The flush of the pending objects.  When an INSERT is refused the
    transaction is lost, but the sequence keeps what was drawn. *)
Definition flush : M unit :=
  fun s =>
    match insert_rows (seq s) (pending s) with
    | Some rows =>
        (Returned tt, {| store := store s; txn := txn s ++ rows; pending := [];
                         seq := (List.length rows + seq s)%nat; plan := plan s |})
    | None =>
        (Raised IntegrityError,
         {| store := store s; txn := txn s; pending := pending s;
            seq := (drawn (pending s) + seq s)%nat; plan := plan s |})
    end.

(** [session.commit()]: flush, then make the transaction's view durable. *)
Definition commit : M unit :=
  (db_call ;; flush ;;
   fun s =>
     (Returned tt,
      {| store := {| job_posting := job_posting (store s);
                     days_to_hire_statistics := txn s;
                     id_seq := seq s |};
         txn := txn s; pending := pending s; seq := seq s;
         plan := plan s |}))%session.

(** Leaving [with get_session() as session:], by return or by exception: the
    open transaction is rolled back and the durable database remains.  Values
    drawn from the sequence are not given back. *)
Definition close (s : Session) : Database :=
  {| job_posting := job_posting (store s);
     days_to_hire_statistics := days_to_hire_statistics (store s);
     id_seq := seq s |}.

Definition with_session {A} (d : Database) (p : FaultPlan) (m : M A)
  : Outcome A * Database :=
  let (r, s) := m (get_session d p) in (r, close s).

(** [session.execute(text("SELECT ... FROM days_to_hire_statistics ..."))] for a
    query that is more than a WHERE clause: [q] is what the query computes
    from the rows of the open transaction. *)
Definition execute_rows {A} (q : list StatisticsRow -> A) : M A :=
  (db_call ;; fun s => (Returned (q (txn s)), s))%session.

End db.

(* ===================================================================== *)
(** * The SQL operations of the two statistics queries                    *)
(* ===================================================================== *)

Module sql.

(** [ORDER BY] on a list, by insertion: rows that compare equal keep their
    order. *)
Section Sorting.
Context {A : Type} (leb : A -> A -> bool).

Fixpoint insert_by (x : A) (l : list A) : list A :=
  match l with
  | [] => [x]
  | y :: l' => if leb x y then x :: l else y :: insert_by x l'
  end.

Definition order_by (l : list A) : list A := fold_right insert_by [] l.

End Sorting.

(** [NTILE(buckets)] for the row at position [pos] (from 0) of a partition of
    [n] rows: the first [n mod buckets] buckets hold one row more than the
    others. *)
Definition ntile (buckets n pos : nat) : nat :=
  let q := (n / buckets)%nat in
  let r := (n mod buckets)%nat in
  if (pos <? r * (q + 1))%nat
  then (pos / (q + 1) + 1)%nat
  else (r + (pos - r * (q + 1)) / q + 1)%nat.

Definition count_if {A} (f : A -> bool) (l : list A) : nat :=
  List.length (filter f l).

(** [percentile_cont(p) WITHIN GROUP (ORDER BY x)]: with [N] values sorted
    ascending and [pos = p * (N - 1)], the value at [floor pos] plus the
    fraction [pos - floor pos] of the step to the value at [ceiling pos];
    NULL over no value. *)
Definition percentile_cont (p : Q) (xs : list Z) : option Q :=
  match xs with
  | [] => None
  | _ =>
      let sorted := order_by Z.leb xs in
      let pos := (p * inject_Z (Z.of_nat (List.length sorted) - 1))%Q in
      let lo := nth (Z.to_nat (Qfloor pos)) sorted 0%Z in
      let hi := nth (Z.to_nat (Qceiling pos)) sorted 0%Z in
      Some (Qred (inject_Z lo
                  + (pos - inject_Z (Qfloor pos)) * inject_Z (hi - lo))%Q)
  end.

Fixpoint non_null {A} (l : list (option A)) : list A :=
  match l with
  | [] => []
  | Some a :: l' => a :: non_null l'
  | None :: l' => non_null l'
  end.

(** [AVG(x)]: the mean of the values that are not NULL; NULL when there is
    none. *)
Definition avg (xs : list (option Z)) : option Q :=
  match non_null xs with
  | [] => None
  | vs => let total := fold_right Z.add 0 vs in
          let n := Z.of_nat (List.length vs) in
          Some (Qred (inject_Z total / inject_Z n)%Q)
  end.

(** [rs LEFT JOIN fs ON on]: every pair that satisfies the condition, and a
    row of [rs] without a partner once, with NULLs on the right. *)
Definition left_join {R F} (on : R -> F -> bool) (rs : list R) (fs : list F)
  : list (R * option F) :=
  flat_map (fun r => match filter (on r) fs with
                     | [] => [(r, None)]
                     | ms => map (fun f => (r, Some f)) ms
                     end) rs.

(** The distinct values of a list, in order of first occurrence. *)
Fixpoint distinct {A} (eqb : A -> A -> bool) (l : list A) : list A :=
  match l with
  | [] => []
  | x :: l' => x :: filter (fun y => negb (eqb x y)) (distinct eqb l')
  end.

(** The two queries differ in their grouping key only: [K] is the type of the
    key, [key_of] reads it off a posting,
    - [same_key] is the comparison of PARTITION BY and GROUP BY, for which two
      NULLs are the same value,
    - [key_eq] is the conjunction of [=] in the ON clause, which is not true
      when a side is NULL,
    - [key_leb] is the order of the final ORDER BY. *)
Section StatsQuery.
Context {K : Type}.
Variable key_of : db.JobPosting -> K.
Variable same_key : K -> K -> bool.
Variable key_eq : K -> K -> bool.
Variable key_leb : K -> K -> bool.

(** A row of the CTE [ranked]. *)
Record Ranked : Type := mkRanked {
  key : K;
  days_to_hire : Z;
  total_count : Z;
  decile_low : nat;
  decile_high : nat
}.

(** [FROM job_posting WHERE days_to_hire IS NOT NULL] *)
Fixpoint with_days (tbl : list db.JobPosting) : list (K * Z) :=
  match tbl with
  | [] => []
  | p :: tbl' =>
      match db.days_to_hire p with
      | Some d => (key_of p, d) :: with_days tbl'
      | None => with_days tbl'
      end
  end.

Definition partition_of (k : K) (rows : list (K * Z)) : list Z :=
  map snd (filter (fun r => same_key k (fst r)) rows).

(** The number of rows of the partition of [k]: the [COUNT( * ) OVER
    (PARTITION BY key)] of its rows. *)
Definition partition_size (k : K) (tbl : list db.JobPosting) : Z :=
  Z.of_nat (List.length (partition_of k (with_days tbl))).

(** The window functions, row by row.  [all] is the whole input, [seen] the
    rows before the current one.  The position of a row in its partition
    under [ORDER BY days_to_hire] is the number of rows of the partition with
    a smaller value plus the number of earlier rows with the same value; under
    [ORDER BY days_to_hire DESC], with a larger value.  (SQL leaves the order
    of rows with equal keys to the engine; here it is the table's.) *)
Fixpoint window (all seen rest : list (K * Z)) : list Ranked :=
  match rest with
  | [] => []
  | (k, d) :: rest' =>
      let part := partition_of k all in
      let ties := count_if (Z.eqb d) (partition_of k seen) in
      let n := List.length part in
      {| key := k;
         days_to_hire := d;
         total_count := Z.of_nat n;
         decile_low := ntile 10 n (count_if (fun x => x <? d) part + ties);
         decile_high := ntile 10 n (count_if (fun x => d <? x) part + ties) |}
      :: window all ((k, d) :: seen) rest'
  end.

(** [WITH ranked AS (SELECT ..., COUNT( * ) OVER (PARTITION BY key),
    NTILE(10) OVER (PARTITION BY key ORDER BY days_to_hire),
    NTILE(10) OVER (PARTITION BY key ORDER BY days_to_hire DESC)
    FROM job_posting WHERE days_to_hire IS NOT NULL)] *)
Definition ranked (tbl : list db.JobPosting) : list Ranked :=
  window (with_days tbl) [] (with_days tbl).

(** [filtered AS (SELECT * FROM ranked WHERE decile_low > 1 AND
    decile_high > 1)] *)
Definition filtered (tbl : list db.JobPosting) : list Ranked :=
  filter (fun r => (1 <? decile_low r)%nat && (1 <? decile_high r)%nat)
         (ranked tbl).

(** The values of the partition of [k], untrimmed, and those of its rows
    that [filtered] keeps, each row once. *)
Definition partition_values (k : K) (tbl : list db.JobPosting) : list Z :=
  partition_of k (with_days tbl).

Definition kept_values (k : K) (tbl : list db.JobPosting) : list Z :=
  map days_to_hire (filter (fun r => same_key k (key r)) (filtered tbl)).

(** [ON r.key = f.key AND r.days_to_hire = f.days_to_hire] *)
Definition on_clause (r f : Ranked) : bool :=
  key_eq (key r) (key f) && (days_to_hire r =? days_to_hire f).

(** [FROM ranked r LEFT JOIN filtered f ON ...] *)
Definition joined (tbl : list db.JobPosting) : list (Ranked * option Ranked) :=
  left_join on_clause (ranked tbl) (filtered tbl).

(** A row of the result. *)
Record StatsRow : Type := mkStatsRow {
  res_key : K;
  res_total_count : Z;
  res_min_days : option Q;
  res_avg_days : option Q;
  res_max_days : option Q
}.

Definition same_group (g h : K * Z) : bool :=
  same_key (fst g) (fst h) && (snd g =? snd h).

Definition group_of (j : Ranked * option Ranked) : K * Z :=
  (key (fst j), total_count (fst j)).

(** The aggregates of one group of [GROUP BY r.key, r.total_count]. *)
Definition aggregate (js : list (Ranked * option Ranked)) (g : K * Z)
  : StatsRow :=
  let members := filter (fun j => same_group g (group_of j)) js in
  {| res_key := fst g;
     res_total_count := snd g;
     res_min_days :=
       percentile_cont (1 # 10) (map (fun j => days_to_hire (fst j)) members);
     res_avg_days :=
       avg (map (fun j => option_map days_to_hire (snd j)) members);
     res_max_days :=
       percentile_cont (9 # 10) (map (fun j => days_to_hire (fst j)) members)
  |}.

(** [SELECT r.key, r.total_count, percentile_cont(0.1) ..., AVG(f.days_to_hire),
    percentile_cont(0.9) ... FROM ranked r LEFT JOIN filtered f ON ...
    GROUP BY r.key, r.total_count HAVING r.total_count >= :min_postings
    ORDER BY r.key] *)
Definition stats_query (min_postings : Z) (tbl : list db.JobPosting)
  : list StatsRow :=
  let js := joined tbl in
  let groups := distinct same_group (map group_of js) in
  order_by (fun a b => key_leb (res_key a) (res_key b))
    (filter (fun s => min_postings <=? res_total_count s)
            (map (aggregate js) groups)).

End StatsQuery.

Arguments key {K} _.
Arguments days_to_hire {K} _.
Arguments total_count {K} _.
Arguments decile_low {K} _.
Arguments decile_high {K} _.
Arguments res_key {K} _.
Arguments res_total_count {K} _.
Arguments res_min_days {K} _.
Arguments res_avg_days {K} _.
Arguments res_max_days {K} _.

Definition opt_eqb (a b : option string) : bool :=
  match a, b with
  | None, None => true
  | Some x, Some y => String.eqb x y
  | _, _ => false
  end.

(** SQL [a = b] being true: false as soon as a side is NULL. *)
Definition opt_sql_eq (a b : option string) : bool :=
  match a, b with
  | Some x, Some y => String.eqb x y
  | _, _ => false
  end.

(** Ascending order with NULLS LAST (the default of PostgreSQL); strings
    compare byte by byte. *)
Definition opt_leb (a b : option string) : bool :=
  match a, b with
  | _, None => true
  | None, Some _ => false
  | Some x, Some y => String.leb x y
  end.

End sql.

(* ===================================================================== *)
(** * home_task/cli.py                                                    *)
(* ===================================================================== *)

Module cli.
Import py db.
Local Open Scope session_scope.

(** The grouping key of the per-country query: [standard_job_id,
    country_code]. *)
Definition country_key (p : JobPosting) : string * option string :=
  (standard_job_id p, country_code p).

Definition country_same (a b : string * option string) : bool :=
  String.eqb (fst a) (fst b) && sql.opt_eqb (snd a) (snd b).

(** [r.standard_job_id = f.standard_job_id AND r.country_code =
    f.country_code] *)
Definition country_eq (a b : string * option string) : bool :=
  String.eqb (fst a) (fst b) && sql.opt_sql_eq (snd a) (snd b).

(** [ORDER BY r.standard_job_id, r.country_code] *)
Definition country_leb (a b : string * option string) : bool :=
  if String.eqb (fst a) (fst b) then sql.opt_leb (snd a) (snd b)
  else String.leb (fst a) (fst b).

Definition COUNTRY_STATS_QUERY (min_postings : Z) (tbl : list JobPosting)
  : list (sql.StatsRow (K := string * option string)) :=
  sql.stats_query country_key country_same country_eq country_leb
                  min_postings tbl.

(** The same query with [standard_job_id] as the only key. *)
Definition GLOBAL_STATS_QUERY (min_postings : Z) (tbl : list JobPosting)
  : list (sql.StatsRow (K := string)) :=
  sql.stats_query standard_job_id String.eqb String.eqb String.leb
                  min_postings tbl.

Definition clear_existing_statistics : M unit :=
  execute_delete ;;
  commit.

(** The [stat_record] built in the loop of [calculate_country_statistics]. *)
Definition country_record (row : sql.StatsRow (K := string * option string))
  : DaysToHireStatistics :=
  {| obj_id := None;
     obj_standard_job_id := fst (sql.res_key row);
     obj_country_code := snd (sql.res_key row);
     obj_min_days := sql.res_min_days row;
     obj_avg_days := sql.res_avg_days row;
     obj_max_days := sql.res_max_days row;
     obj_job_postings_number := sql.res_total_count row |}.

Definition calculate_country_statistics (min_postings : Z)
  : M (list DaysToHireStatistics) :=
  result <- execute_query (COUNTRY_STATS_QUERY min_postings) ;;
  ret (map country_record result).

(** The [stat_record] built in the loop of [calculate_global_statistics]:
    [country_code=None]. *)
Definition global_record (row : sql.StatsRow (K := string))
  : DaysToHireStatistics :=
  {| obj_id := None;
     obj_standard_job_id := sql.res_key row;
     obj_country_code := None;
     obj_min_days := sql.res_min_days row;
     obj_avg_days := sql.res_avg_days row;
     obj_max_days := sql.res_max_days row;
     obj_job_postings_number := sql.res_total_count row |}.

Definition calculate_global_statistics (min_postings : Z)
  : M (list DaysToHireStatistics) :=
  result <- execute_query (GLOBAL_STATS_QUERY min_postings) ;;
  ret (map global_record result).

Definition insert_statistics (statistics : list DaysToHireStatistics)
  : M unit :=
  add_all statistics.

Definition process_job_postings (min_postings : Z) : M unit :=
  clear_existing_statistics ;;
  country_stats <- calculate_country_statistics min_postings ;;
  insert_statistics country_stats ;;
  global_stats <- calculate_global_statistics min_postings ;;
  insert_statistics global_stats ;;
  commit.

(** [main]: [with get_session() as session: process_job_postings(session,
    args.min_postings)]; an exception is logged and raised again. *)
Definition main (d : Database) (p : FaultPlan) (min_postings : Z)
  : Outcome unit * Database :=
  with_session d p (process_job_postings min_postings).

(** The rows of a table for one pair of [standard_job_id] and
    [country_code], where [None] is the NULL of the global rows. *)
Definition rows_for (job : string) (cc : option string)
  (tbl : list StatisticsRow) : list StatisticsRow :=
  filter (fun r => String.eqb (fst (row_key r)) job
                   && sql.opt_eqb (snd (row_key r)) cc) tbl.

(** The database once the DELETE has been committed. *)
Definition emptied (d : Database) : Database :=
  {| job_posting := job_posting d; days_to_hire_statistics := [];
     id_seq := id_seq d |}.

(** The objects of one run, in the order in which they are added to the
    session. *)
Definition computed (min_postings : Z) (tbl : list JobPosting)
  : list DaysToHireStatistics :=
  map country_record (COUNTRY_STATS_QUERY min_postings tbl)
  ++ map global_record (GLOBAL_STATS_QUERY min_postings tbl).

(** The database after a run whose final flush was refused: the DELETE is
    committed, the inserts are lost and the sequence has moved. *)
Definition rejected (d : Database) (min_postings : Z) : Database :=
  {| job_posting := job_posting d; days_to_hire_statistics := [];
     id_seq := (drawn (computed min_postings (job_posting d)) + id_seq d)%nat |}.

(** The first two datastore calls of a run, the DELETE and the commit that
    follows it, both go through. *)
Definition delete_committed (p : FaultPlan) : bool :=
  match fault_at 0 p, fault_at 1 p with
  | None, None => true
  | _, _ => false
  end.

(** No call of the run is made to fail. *)
Definition fault_free (p : FaultPlan) : bool :=
  match fault_at 0 p, fault_at 1 p, fault_at 2 p, fault_at 3 p, fault_at 4 p
  with
  | None, None, None, None, None => true
  | _, _, _, _, _ => false
  end.

(** The number of postings of a job in a country that have a number of
    days. *)
Definition country_postings (job cc : string) (tbl : list JobPosting) : Z :=
  Z.of_nat (List.length
    (filter (fun p => String.eqb (standard_job_id p) job
                      && sql.opt_eqb (country_code p) (Some cc)
                      && has_days p) tbl)).

(** The number of postings of a job, over all countries and without one, that
    have a number of days. *)
Definition job_postings (job : string) (tbl : list JobPosting) : Z :=
  Z.of_nat (List.length
    (filter (fun p => String.eqb (standard_job_id p) job && has_days p)
            tbl)).

(** The number of postings of a job without a country that have a number of
    days. *)
Definition countryless_postings (job : string) (tbl : list JobPosting) : Z :=
  Z.of_nat (List.length
    (filter (fun p => String.eqb (standard_job_id p) job
                      && sql.opt_eqb (country_code p) None
                      && has_days p) tbl)).

End cli.

(* ===================================================================== *)
(** * home_task/api.py                                                    *)
(* ===================================================================== *)

Module api.
Import py db.
Local Open Scope session_scope.

Record StatisticsResponse : Type := mkStatisticsResponse {
  standard_job_id : string;
  country_code : option string;
  min_days : Q;
  avg_days : Q;
  max_days : Q;
  job_postings_number : Z
}.

(** [f"{country_code}"] *)
Definition format_opt (o : option string) : string :=
  match o with Some s => s | None => "None" end.

(** [WHERE standard_job_id = :standard_job_id AND country_code =
    :country_code] *)
Definition where_country (job : string) (cc : option string)
  (r : StatisticsRow) : bool :=
  String.eqb (row_standard_job_id r) job
  && sql.opt_sql_eq (row_country_code r) cc.

(** [WHERE standard_job_id = :standard_job_id AND country_code IS NULL] *)
Definition where_global (job : string) (r : StatisticsRow) : bool :=
  String.eqb (row_standard_job_id r) job
  && match row_country_code r with None => true | Some _ => false end.

(** [result.fetchone()] *)
Definition fetchone {A} (result : list A) : option A := hd_error result.

Definition not_found_detail (job : string) (cc : option string) : string :=
  if truthy_opt cc
  then "No statistics found for standard_job_id '" ++ job
       ++ "' and country_code '" ++ format_opt cc ++ "'"
  else "No global statistics found for standard_job_id '" ++ job ++ "'".

(** [StatisticsResponse(standard_job_id=row.standard_job_id, ...)] *)
Definition response_of (row : StatisticsRow) : StatisticsResponse :=
  {| standard_job_id := row_standard_job_id row;
     country_code := row_country_code row;
     min_days := row_min_days row;
     avg_days := row_avg_days row;
     max_days := row_max_days row;
     job_postings_number := row_job_postings_number row |}.

(** The condition of the query that [get_statistics] builds. *)
Definition where_clause (job : string) (cc : option string)
  : StatisticsRow -> bool :=
  if truthy_opt cc then where_country job cc else where_global job.

(** The body of the [with] block of [get_statistics]. *)
Definition query_statistics (job : string) (cc : option string)
  : M StatisticsResponse :=
  result <- (if truthy_opt cc
             then execute_select (where_country job cc)
             else execute_select (where_global job)) ;;
  match fetchone result with
  | None => raise (HTTPException 404 (not_found_detail job cc))
  | Some row => ret (response_of row)
  end.

(** [GET /statistics] *)
Definition get_statistics (job : string) (cc : option string)
  (d : Database) (p : FaultPlan) : Outcome StatisticsResponse :=
  if negb (truthy job) || negb (truthy (strip job))
  then Raised (HTTPException 400
         "standard_job_id parameter is required and cannot be empty")
  else
    fst (with_session d p
           (try_except (query_statistics job cc)
              (fun e =>
                 match e with
                 | HTTPException _ _ => raise e
                 | Error msg =>
                     raise (HTTPException 500
                              ("Internal server error while retrieving statistics: "
                               ++ msg))
                 end))).

(** [GET /health] *)
Definition health_check (d : Database) (p : FaultPlan)
  : Outcome (list (string * string)) :=
  Returned [("status", "healthy");
            ("service", "days-to-hire-statistics-api")].

(** [SELECT DISTINCT standard_job_id FROM days_to_hire_statistics
    ORDER BY standard_job_id] *)
Definition select_jobs (rows : list StatisticsRow) : list string :=
  sql.order_by String.leb
    (sql.distinct String.eqb (map row_standard_job_id rows)).

(** The body [{available_jobs: jobs, count: len(jobs)}]. *)
Record AvailableJobs : Type := mkAvailableJobs {
  available_jobs : list string;
  jobs_count : nat
}.

(** [GET /statistics/available-jobs] *)
Definition get_available_jobs (d : Database) (p : FaultPlan)
  : Outcome AvailableJobs :=
  fst (with_session d p
         (try_except
            (jobs <- execute_rows select_jobs ;;
             ret {| available_jobs := jobs; jobs_count := List.length jobs |})
            (fun e =>
               raise (HTTPException 500
                        ("Error retrieving available jobs: " ++ str e))))).

(** [SELECT DISTINCT country_code FROM days_to_hire_statistics
    WHERE standard_job_id = :standard_job_id AND country_code IS NOT NULL
    ORDER BY country_code] *)
Definition select_countries (job : string) (rows : list StatisticsRow)
  : list string :=
  sql.order_by String.leb
    (sql.distinct String.eqb
       (sql.non_null
          (map row_country_code
             (filter (fun r => String.eqb (row_standard_job_id r) job)
                     rows)))).

(** The body [{standard_job_id: ..., available_countries: countries,
    count: len(countries)}]. *)
Record AvailableCountries : Type := mkAvailableCountries {
  requested_job_id : string;
  available_countries : list string;
  countries_count : nat
}.

(** [GET /statistics/available-countries] *)
Definition get_available_countries (job : string) (d : Database)
  (p : FaultPlan) : Outcome AvailableCountries :=
  fst (with_session d p
         (try_except
            (countries <- execute_rows (select_countries job) ;;
             ret {| requested_job_id := job;
                    available_countries := countries;
                    countries_count := List.length countries |})
            (fun e =>
               raise (HTTPException 500
                        ("Error retrieving available countries: " ++ str e))))).

End api.

(* ===================================================================== *)
(** * migrations/versions/991ecb2bf269_load_data.py                       *)
(* ===================================================================== *)

Module load_data.
Import py db.

(** A row of [csv.DictReader] over [job_posting.csv]: [row.get(k)] for the
    five columns the loader reads ([None] when the line is too short to have
    the column). *)
Record CsvRow : Type := mkCsvRow {
  csv_id : option string;
  csv_title : option string;
  csv_standard_job_id : option string;
  csv_country_code : option string;
  csv_days_to_hire : option string
}.

(** [not row.get(k) or not row.get(k).strip()] *)
Definition missing (field : option string) : bool :=
  match field with
  | None => true
  | Some s => negb (truthy s) || negb (truthy (strip s))
  end.

Section Upgrade.
(** [int(s)] of Python, [None] standing for [ValueError]. *)
Variable int : string -> option Z.

(** The empty-value handling of [days_to_hire]. *)
Definition days_of (field : option string) : option Z :=
  match field with
  | Some s => if truthy s && truthy (strip s) then int s else None
  | None => None
  end.

(** The empty-value handling of [country_code]: only a truthy value is
    stripped, and turned into [None] when nothing is left. *)
Definition country_of (field : option string) : option string :=
  match field with
  | Some c =>
      if truthy c
      then (if truthy (strip c) then Some (strip c) else None)
      else Some c
  | None => None
  end.

(** One turn of the third loop of [upgrade]: the row that is inserted into
    [job_posting], or [None] when the loop continues without inserting. *)
Definition job_posting_of (row : CsvRow) : option JobPosting :=
  if missing (csv_id row) then None
  else if missing (csv_title row) then None
  else if missing (csv_standard_job_id row) then None
  else
    match csv_id row, csv_title row, csv_standard_job_id row with
    | Some i, Some t, Some j =>
        Some {| id := strip i;
                title := strip t;
                standard_job_id := strip j;
                country_code := country_of (csv_country_code row);
                days_to_hire := days_of (csv_days_to_hire row) |}
    | _, _, _ => None
    end.

(** The rows for which the third loop of [upgrade] executes an INSERT, in
    order, as long as no INSERT raises. *)
Fixpoint upgrade_job_posting (rows : list CsvRow) : list JobPosting :=
  match rows with
  | [] => []
  | row :: rows' =>
      match job_posting_of row with
      | Some p => p :: upgrade_job_posting rows'
      | None => upgrade_job_posting rows'
      end
  end.

(** Whether [job_posting] refuses the INSERT of a row after the rows
    inserted before it (a value out of the range of an integer column, an
    [id] that is already there, ...).  The table is created by an earlier
    migration, which is not among the sources. *)
Variable refused : list JobPosting -> JobPosting -> bool.

(** The third loop of [upgrade], INSERT by INSERT: [inserted] is what the
    loop has inserted so far.  [op.execute] raises when the table refuses a
    row, and the exception ends the migration: [None]. *)
Fixpoint insert_each (inserted : list JobPosting) (rows : list CsvRow)
  : option (list JobPosting) :=
  match rows with
  | [] => Some inserted
  | row :: rows' =>
      match job_posting_of row with
      | None => insert_each inserted rows'
      | Some p =>
          if refused inserted p then None
          else insert_each (inserted ++ [p]) rows'
      end
  end.

(** The postings that [upgrade] has loaded when it returns, [None] when it
    raises. *)
Definition upgrade (rows : list CsvRow) : option (list JobPosting) :=
  insert_each [] rows.

(** The three required fields of a row are there. *)
Definition complete (row : CsvRow) : bool :=
  negb (missing (csv_id row) || missing (csv_title row)
        || missing (csv_standard_job_id row)).

(** The [days_to_hire] that a field is loaded as. *)
Definition loaded_days (field : option string) : option Z :=
  match field with
  | Some s => if blank s then None else int s
  | None => None
  end.

End Upgrade.

End load_data.

(* ===================================================================== *)
(** * Sample data                                                         *)
(* ===================================================================== *)

Module sample.
Import db.

Definition us_row : StatisticsRow :=
  mkStatisticsRow 1 "job1" (Some "US") 19 55 91 10.
Definition unnamed_country_row : StatisticsRow :=
  mkStatisticsRow 2 "job1" (Some EmptyString) 1 2 3 5.
Definition global_row : StatisticsRow :=
  mkStatisticsRow 3 "job1" None 15 50 95 25.

(** A summary table with a row for "US", a row whose country code is the
    empty string and the global row of the same job. *)
Definition served : Database :=
  mkDatabase [] [us_row; unnamed_country_row; global_row] 4.

Definition posting (n : string) (job : string) (cc : option string) (d : Z)
  : JobPosting :=
  mkJobPosting n "t" job cc (Some d).

(** The postings of [test_cli_correct_statistics]. *)
Definition ten_postings : list JobPosting :=
  [posting "b0" "job2" (Some "DE") 10; posting "b1" "job2" (Some "DE") 20;
   posting "b2" "job2" (Some "DE") 30; posting "b3" "job2" (Some "DE") 40;
   posting "b4" "job2" (Some "DE") 50; posting "b5" "job2" (Some "DE") 60;
   posting "b6" "job2" (Some "DE") 70; posting "b7" "job2" (Some "DE") 80;
   posting "b8" "job2" (Some "DE") 90; posting "b9" "job2" (Some "DE") 100].

(** Five postings of one job in one country, two of them with the same
    number of days. *)
Definition tied_postings : list JobPosting :=
  [posting "a0" "j" (Some "US") 10; posting "a1" "j" (Some "US") 20;
   posting "a2" "j" (Some "US") 20; posting "a3" "j" (Some "US") 30;
   posting "a4" "j" (Some "US") 40].

(** Four postings in one country ([test_cli_skips_small_groups]) next to the
    ten above. *)
Definition mixed_postings : list JobPosting :=
  [posting "s0" "job1" (Some "US") 10; posting "s1" "job1" (Some "US") 11;
   posting "s2" "job1" (Some "US") 12; posting "s3" "job1" (Some "US") 13]
  ++ ten_postings.

(** Five postings of one job that have no country. *)
Definition countryless_postings : list JobPosting :=
  [posting "n0" "job4" None 10; posting "n1" "job4" None 11;
   posting "n2" "job4" None 12; posting "n3" "job4" None 13;
   posting "n4" "job4" None 14].

(** A stand-in for [int] on the fields of the sample rows: the value of a
    string of decimal digits, and no value for any other string. *)
Fixpoint digits (acc : Z) (s : string) : option Z :=
  match s with
  | EmptyString => Some acc
  | String c s' =>
      let n := Z.of_nat (nat_of_ascii c) in
      if (48 <=? n) && (n <=? 57) then digits (10 * acc + (n - 48)) s'
      else None
  end.

Definition int_of_digits (s : string) : option Z :=
  match s with
  | EmptyString => None
  | _ => digits 0 s
  end.

(** A table that refuses a [days_to_hire] out of the range of a 32-bit
    integer column, and nothing else. *)
Definition int4_refused (_ : list JobPosting) (p : JobPosting) : bool :=
  match days_to_hire p with
  | Some n => (n <? -2147483648) || (2147483647 <? n)
  | None => false
  end.

(** Rows of a CSV file: one with every field, one whose [days_to_hire] is not
    a number and whose country is blank, one without a title. *)
Definition csv_rows : list load_data.CsvRow :=
  [load_data.mkCsvRow (Some " p1 ") (Some "Engineer") (Some "job1")
                      (Some "US") (Some "30");
   load_data.mkCsvRow (Some "p2") (Some "Engineer") (Some "job1")
                      (Some "  ") (Some "soon");
   load_data.mkCsvRow (Some "p3") (Some " ") (Some "job1")
                      (Some "DE") (Some "12")].

(** A database whose summary table holds an earlier snapshot. *)
Definition stale (facts : list JobPosting) : Database :=
  mkDatabase facts [mkStatisticsRow 1 "job3" (Some "FR") 1 2 3 10] 2.

(** A database that holds these five postings and no statistics yet. *)
Definition tied : Database := mkDatabase tied_postings [] 1.

End sample.

(* ===================================================================== *)
(** * Properties of the read API                                          *)
(* ===================================================================== *)

Section StripFacts.
Import py.

Lemma rstrip_of_blank (s : string) :
  blank s = true -> rstrip s = EmptyString.
Proof.
  induction s as [|c s IH]; simpl; [reflexivity|].
  intros H. apply andb_true_iff in H as [Hc Hs].
  rewrite (IH Hs), Hc. reflexivity.
Qed.

Lemma rstrip_empty_blank (s : string) :
  rstrip s = EmptyString -> blank s = true.
Proof.
  induction s as [|c s IH]; simpl; [reflexivity|].
  destruct (rstrip s) eqn:E.
  - destruct (isspace c); [|discriminate].
    intros _. now rewrite IH.
  - discriminate.
Qed.

(** What [rstrip] leaves does not end in whitespace: if it is blank, it is
    empty. *)
Lemma rstrip_blank_empty (s : string) :
  blank (rstrip s) = true -> rstrip s = EmptyString.
Proof.
  induction s as [|c s IH]; simpl; [reflexivity|].
  destruct (rstrip s) eqn:E.
  - destruct (isspace c) eqn:Hc; [reflexivity|].
    simpl. rewrite Hc. discriminate.
  - intros H. change (blank (String c (String a s0)) = true) in H.
    simpl in H. apply andb_true_iff in H as [_ H].
    specialize (IH H). discriminate.
Qed.

Lemma lstrip_truthy (s : string) : truthy (lstrip s) = negb (blank s).
Proof.
  induction s as [|c s IH]; simpl; [reflexivity|].
  destruct (isspace c); simpl; [exact IH|reflexivity].
Qed.

Lemma strip_truthy (s : string) : truthy (strip s) = negb (blank s).
Proof.
  unfold strip. rewrite lstrip_truthy. f_equal.
  destruct (blank s) eqn:B.
  - rewrite (rstrip_of_blank s B). reflexivity.
  - destruct (blank (rstrip s)) eqn:B'; [|reflexivity].
    apply rstrip_blank_empty, rstrip_empty_blank in B'. congruence.
Qed.

(** The guard of [get_statistics] rejects the blank strings and no other. *)
Lemma guard_blank (s : string) :
  negb (truthy s) || negb (truthy (strip s)) = blank s.
Proof.
  rewrite strip_truthy, negb_involutive.
  destruct s; simpl; [reflexivity|].
  reflexivity.
Qed.

End StripFacts.

Section ApiFacts.
Import py db api.

Lemma hd_error_filter {A} (f : A -> bool) (l : list A) :
  hd_error (filter f l) = find f l.
Proof.
  induction l as [|a l IH]; simpl; [reflexivity|].
  destruct (f a); [reflexivity|exact IH].
Qed.

(** [get_statistics] in closed form: the guard, then the one datastore call,
    then the first row that the WHERE clause selects. *)
Lemma get_statistics_eq (job : string) (cc : option string)
  (d : Database) (p : FaultPlan) :
  get_statistics job cc d p =
  if blank job
  then Raised (HTTPException 400
         "standard_job_id parameter is required and cannot be empty")
  else match fault_at 0 p with
       | Some e =>
           Raised (HTTPException 500
             ("Internal server error while retrieving statistics: " ++ e))
       | None =>
           match find (where_clause job cc) (days_to_hire_statistics d) with
           | Some row => Returned (response_of row)
           | None => Raised (HTTPException 404 (not_found_detail job cc))
           end
       end.
Proof.
  unfold get_statistics. rewrite guard_blank.
  destruct (blank job); [reflexivity|].
  unfold with_session, try_except, query_statistics, where_clause, fault_at.
  destruct (truthy_opt cc);
    unfold bind, execute_select, db_call, bind, get_session, fetchone;
    destruct p as [|[e|] p]; simpl; try reflexivity;
    rewrite hd_error_filter;
    match goal with |- context [find ?f ?l] => destruct (find f l) end;
    reflexivity.
Qed.

Lemma where_clause_sound (job : string) (cc : option string)
  (row : StatisticsRow) :
  where_clause job cc row = true ->
  row_standard_job_id row = job /\
  row_country_code row = (if truthy_opt cc then cc else None).
Proof.
  unfold where_clause, where_country, where_global.
  destruct (truthy_opt cc) eqn:T; intros H;
    apply andb_true_iff in H as [Hj Hc];
    apply String.eqb_eq in Hj; split; try exact Hj.
  - destruct (row_country_code row) as [x|], cc as [y|]; simpl in Hc;
      try discriminate.
    apply String.eqb_eq in Hc. now subst.
  - destruct (row_country_code row); [discriminate|reflexivity].
Qed.

Lemma where_clause_complete (job : string) (cc : option string)
  (row : StatisticsRow) :
  row_standard_job_id row = job ->
  row_country_code row = (if truthy_opt cc then cc else None) ->
  where_clause job cc row = true.
Proof.
  unfold where_clause, where_country, where_global.
  intros Hj Hc.
  destruct (truthy_opt cc) eqn:T; rewrite Hj, Hc, String.eqb_refl; simpl;
    [|reflexivity].
  destruct cc as [c|]; [|discriminate]. simpl. apply String.eqb_refl.
Qed.


End ApiFacts.

Section ApiProperties.
Import py db api.

(** C6 (amended).  [get_statistics] is an exact-key lookup: a response it
    returns is a row of the summary table of the requested job whose
    [country_code] equals the supplied value when it is a non-empty string, and
    is NULL (the global row) when the country code is omitted or empty. *)
Theorem get_statistics_exact_key (job : string) (cc : option string)
  (d : Database) (p : FaultPlan) (r : StatisticsResponse) :
  get_statistics job cc d p = Returned r ->
  In r (map response_of (days_to_hire_statistics d)) /\
  standard_job_id r = job /\
  country_code r = (if truthy_opt cc then cc else None).
Proof.
  rewrite get_statistics_eq.
  destruct (blank job); [discriminate|].
  destruct (fault_at 0 p); [discriminate|].
  destruct (find _ _) as [row|] eqn:F; [|discriminate].
  intros [= <-]. apply find_some in F as [Hin Hw].
  apply where_clause_sound in Hw as [Hj Hc].
  split; [now apply in_map|]. split; assumption.
Qed.

Lemma get_statistics_exact_key_witness :
  In (response_of sample.us_row)
     (map response_of (days_to_hire_statistics sample.served)) /\
  standard_job_id (response_of sample.us_row) = "job1" /\
  country_code (response_of sample.us_row) = Some "US".
Proof.
  apply (get_statistics_exact_key "job1" (Some "US") sample.served []).
  reflexivity.
Defined.

(** C6 as stated fails for a supplied country code that is the empty string:
    the table has a row whose [country_code] is that very value, and the
    answer is the global row. *)
Lemma get_statistics_empty_country_code :
  In sample.unnamed_country_row (days_to_hire_statistics sample.served) /\
  row_country_code sample.unnamed_country_row = Some EmptyString /\
  get_statistics "job1" (Some EmptyString) sample.served []
  = Returned (response_of sample.global_row) /\
  country_code (response_of sample.global_row) <> Some EmptyString.
Proof.
  repeat split.
  - simpl. auto.
  - discriminate.
Qed.

(** C9.  An empty string as country code is the same request as no country
    code: the lookup is for the row of the job whose country code is NULL,
    not for a row whose country code is the empty string.  The call answers
    as the call without a country code does; it returns the first row of the
    table for the job with a NULL country code; a record it returns comes
    from such a row; when the id is not blank and the datastore answers, it
    returns a record as soon as the job has such a row, and answers 404 with
    the detail of the global lookup when the job has none, whatever rows
    with an empty country code the table holds. *)
Theorem get_statistics_empty_is_omitted (job : string) (d : Database)
  (p : FaultPlan) :
  get_statistics job (Some EmptyString) d p = get_statistics job None d p /\
  get_statistics job (Some EmptyString) d p
  = (if blank job
     then Raised (HTTPException 400
            "standard_job_id parameter is required and cannot be empty")
     else match fault_at 0 p with
          | Some e =>
              Raised (HTTPException 500
                ("Internal server error while retrieving statistics: " ++ e)%string)
          | None =>
              match find (where_global job) (days_to_hire_statistics d) with
              | Some row => Returned (response_of row)
              | None =>
                  Raised (HTTPException 404
                    ("No global statistics found for standard_job_id '"
                     ++ job ++ "'")%string)
              end
          end) /\
  (forall r,
     get_statistics job (Some EmptyString) d p = Returned r ->
     exists row, In row (days_to_hire_statistics d) /\
                 row_standard_job_id row = job /\
                 row_country_code row = None /\ r = response_of row) /\
  (blank job = false -> fault_at 0 p = None ->
   forall row, In row (days_to_hire_statistics d) ->
               row_standard_job_id row = job ->
               row_country_code row = None ->
   exists r, get_statistics job (Some EmptyString) d p = Returned r /\
             standard_job_id r = job /\ country_code r = None) /\
  (blank job = false -> fault_at 0 p = None ->
   (forall row, In row (days_to_hire_statistics d) ->
                row_standard_job_id row = job ->
                row_country_code row <> None) ->
   get_statistics job (Some EmptyString) d p
   = Raised (HTTPException 404
       ("No global statistics found for standard_job_id '" ++ job ++ "'")%string)).
Proof.
  split; [reflexivity|].
  rewrite get_statistics_eq.
  change (where_clause job (Some EmptyString)) with (where_global job).
  change (not_found_detail job (Some EmptyString))
    with ("No global statistics found for standard_job_id '" ++ job ++ "'")%string.
  split; [reflexivity|].
  assert (Hsound : forall row, where_global job row = true ->
            row_standard_job_id row = job /\ row_country_code row = None).
  { intros row H. unfold where_global in H.
    apply andb_true_iff in H as [Hj Hc]. apply String.eqb_eq in Hj.
    destruct (row_country_code row); [discriminate|]. auto. }
  split; [|split].
  - intros r.
    destruct (blank job); [discriminate|].
    destruct (fault_at 0 p); [discriminate|].
    destruct (find _ _) as [row|] eqn:F; [|discriminate].
    intros [= <-]. apply find_some in F as [Hin Hw].
    apply Hsound in Hw as [Hj Hc]. exists row. auto.
  - intros -> -> row Hin Hj Hc.
    destruct (find _ _) as [row'|] eqn:F.
    + apply find_some in F as [_ Hw]. apply Hsound in Hw as [Hj' Hc'].
      exists (response_of row'). auto.
    + apply (find_none _ _ F) in Hin. unfold where_global in Hin.
      rewrite Hj, Hc, String.eqb_refl in Hin. discriminate.
  - intros -> -> Hnone.
    destruct (find _ _) as [row|] eqn:F; [exfalso|reflexivity].
    apply find_some in F as [Hin Hw]. apply Hsound in Hw as [Hj Hc].
    exact (Hnone row Hin Hj Hc).
Qed.


(** C10.  [health_check] answers with the same constant, status "healthy",
    whatever the datastore holds and whether its calls would fail or not. *)
Theorem health_check_constant (d d' : Database) (p p' : FaultPlan) :
  health_check d p = health_check d' p' /\
  health_check d p = Returned [("status", "healthy");
                               ("service", "days-to-hire-statistics-api")].
Proof.
  split; reflexivity.
Qed.

End ApiProperties.

(* ===================================================================== *)
(** * The run of the aggregation job, call by call                        *)
(* ===================================================================== *)

Section RunFacts.
Import py db cli.

(** [main] in closed form.  The run makes five datastore calls: the DELETE,
    its commit, the two queries and the final commit, whose flush inserts the
    computed objects. *)
Lemma main_eq (d : Database) (p : FaultPlan) (min_postings : Z) :
  main d p min_postings =
  match fault_at 0 p with
  | Some e => (Raised (Error e), d)
  | None =>
  match fault_at 1 p with
  | Some e => (Raised (Error e), d)
  | None =>
  match fault_at 2 p with
  | Some e => (Raised (Error e), emptied d)
  | None =>
  match fault_at 3 p with
  | Some e => (Raised (Error e), emptied d)
  | None =>
  match fault_at 4 p with
  | Some e => (Raised (Error e), emptied d)
  | None =>
  match insert_rows (id_seq d) (computed min_postings (job_posting d)) with
  | None => (Raised IntegrityError, rejected d min_postings)
  | Some rows =>
      (Returned tt,
       {| job_posting := job_posting d; days_to_hire_statistics := rows;
          id_seq := (List.length rows + id_seq d)%nat |})
  end end end end end end.
Proof.
  destruct d as [facts summary n].
  unfold main, with_session, process_job_postings, clear_existing_statistics,
    calculate_country_statistics, calculate_global_statistics,
    insert_statistics, rejected, computed, emptied, fault_at.
  generalize (COUNTRY_STATS_QUERY min_postings) as qc.
  generalize (GLOBAL_STATS_QUERY min_postings) as qg.
  intros qg qc.
  unfold execute_delete, commit, execute_query, add_all, flush, db_call,
    get_session, close, bind, ret.
  destruct p as [|[e0|] [|[e1|] [|[e2|] [|[e3|] [|[e4|] p]]]]];
    cbn; try reflexivity;
    destruct (insert_rows n (map country_record (qc facts)
                             ++ map global_record (qg facts)));
    reflexivity.
Qed.

End RunFacts.

(* ===================================================================== *)
(** * Lists: order, distinct values, counting                             *)
(* ===================================================================== *)

Section ListFacts.
Context {A B : Type}.

Lemma insert_by_perm (leb : A -> A -> bool) (x : A) (l : list A) :
  Permutation (sql.insert_by leb x l) (x :: l).
Proof.
  induction l as [|y l IH]; simpl; [reflexivity|].
  destruct (leb x y); [reflexivity|].
  rewrite IH. apply perm_swap.
Qed.

Lemma order_by_perm (leb : A -> A -> bool) (l : list A) :
  Permutation (sql.order_by leb l) l.
Proof.
  induction l as [|x l IH]; simpl; [reflexivity|].
  rewrite insert_by_perm. now constructor.
Qed.

Lemma in_order_by (leb : A -> A -> bool) (l : list A) (x : A) :
  In x (sql.order_by leb l) <-> In x l.
Proof.
  split; apply Permutation_in;
    [apply order_by_perm | symmetry; apply order_by_perm].
Qed.

Section Distinct.
Variable eqb : A -> A -> bool.
Hypothesis eqb_spec : forall x y, eqb x y = true <-> x = y.

Lemma in_distinct (l : list A) (x : A) :
  In x (sql.distinct eqb l) <-> In x l.
Proof.
  induction l as [|a l IH]; simpl; [reflexivity|].
  rewrite filter_In, IH. split.
  - intros [H|[H _]]; auto.
  - intros [H|H]; [now left|].
    destruct (eqb a x) eqn:E.
    + left. now apply eqb_spec.
    + right. split; [assumption|reflexivity].
Qed.

Lemma NoDup_distinct (l : list A) : NoDup (sql.distinct eqb l).
Proof.
  induction l as [|a l IH]; simpl; constructor.
  - rewrite filter_In. intros [_ H].
    rewrite (proj2 (eqb_spec a a) eq_refl) in H. discriminate.
  - now apply NoDup_filter.
Qed.

End Distinct.

Lemma NoDup_map_on (f : A -> B) (l : list A) :
  NoDup l ->
  (forall x y, In x l -> In y l -> f x = f y -> x = y) ->
  NoDup (map f l).
Proof.
  induction 1 as [|a l Hn Hl IH]; simpl; intros Hinj; constructor.
  - rewrite in_map_iff. intros (y & Hy & Hin).
    assert (y = a) by (apply Hinj; simpl; auto).
    subst. contradiction.
  - apply IH. intros x y Hx Hy. apply Hinj; simpl; auto.
Qed.

Lemma NoDup_map_filter (keep : A -> bool) (f : A -> B) (rows : list A)
  (Hrows : NoDup (map f rows)) :
  NoDup (map f (filter keep rows)).
Proof.
  induction rows as [|a rows IH]; simpl in *; [exact Hrows|].
  inversion Hrows as [|? ? Hn Hl]; subst.
  destruct (keep a); simpl; [constructor|]; auto.
  rewrite in_map_iff in *. intros (y & Hy & Hin).
  apply Hn. exists y. split; [assumption|].
  now apply filter_In in Hin.
Qed.

(** Among values that are pairwise different, a test that singles out one
    value holds for one element if the value is there and for none
    otherwise. *)
Lemma count_if_NoDup (f : A -> B) (hit : B -> bool) (k : B) (l : list A) :
  (forall b, hit b = true <-> b = k) ->
  NoDup (map f l) ->
  (In k (map f l) -> sql.count_if (fun x => hit (f x)) l = 1%nat) /\
  (~ In k (map f l) -> sql.count_if (fun x => hit (f x)) l = 0%nat).
Proof.
  intros Hhit. unfold sql.count_if.
  induction l as [|a l IH]; simpl; intros Hnd.
  - split; [contradiction|reflexivity].
  - inversion Hnd as [|? ? Hn Hl]; subst.
    destruct (IH Hl) as [IH1 IH0].
    destruct (hit (f a)) eqn:E.
    + apply Hhit in E. rewrite E in Hn. split; intros H'; simpl.
      * now rewrite (IH0 Hn).
      * exfalso. apply H'. now left.
    + assert (f a <> k) by (intros E'; apply Hhit in E'; congruence).
      split; intros H'.
      * apply IH1. destruct H'; [contradiction|assumption].
      * apply IH0. tauto.
Qed.

End ListFacts.

(* ===================================================================== *)
(** * The statistics query, for any grouping key                          *)
(* ===================================================================== *)

Section QueryFacts.
Context {K : Type}.
Variable key_of : db.JobPosting -> K.
Variables same_key key_eq key_leb : K -> K -> bool.
Hypothesis same_key_spec : forall a b, same_key a b = true <-> a = b.

Local Abbreviation with_days := (sql.with_days key_of).
Local Abbreviation ranked := (sql.ranked key_of same_key).
Local Abbreviation filtered := (sql.filtered key_of same_key).
Local Abbreviation joined := (sql.joined key_of same_key key_eq).
Local Abbreviation partition_size := (sql.partition_size key_of same_key).
Local Abbreviation stats_query := (sql.stats_query key_of same_key key_eq key_leb).
Local Abbreviation same_group := (sql.same_group same_key).

Lemma same_group_spec (g h : K * Z) : same_group g h = true <-> g = h.
Proof.
  unfold sql.same_group. destruct g as [k n], h as [k' n']. simpl.
  rewrite andb_true_iff, same_key_spec, Z.eqb_eq.
  split; [intros [-> ->]; reflexivity | intros [= -> ->]; auto].
Qed.

Lemma in_window (all seen rest : list (K * Z)) (r : sql.Ranked) :
  In r (sql.window same_key all seen rest) ->
  In (sql.key r, sql.days_to_hire r) rest /\
  sql.total_count r
  = Z.of_nat (List.length (sql.partition_of same_key (sql.key r) all)).
Proof.
  revert seen. induction rest as [|[k d] rest IH]; simpl; intros seen H.
  - contradiction.
  - destruct H as [<-|H]; simpl; [auto|].
    destruct (IH _ H) as [H1 H2]. auto.
Qed.

Lemma window_covers (all seen rest : list (K * Z)) (k : K) (d : Z) :
  In (k, d) rest ->
  exists r, In r (sql.window same_key all seen rest) /\
            sql.key r = k /\ sql.days_to_hire r = d.
Proof.
  revert seen. induction rest as [|[k' d'] rest IH]; simpl; intros seen H.
  - contradiction.
  - destruct H as [[= -> ->]|H].
    + eexists. split; [left; reflexivity|]. simpl. auto.
    + destruct (IH ((k', d') :: seen) H) as (r & Hr & Hk). eauto.
Qed.

Lemma in_ranked (tbl : list db.JobPosting) (r : sql.Ranked) :
  In r (ranked tbl) ->
  In (sql.key r, sql.days_to_hire r) (with_days tbl) /\
  sql.total_count r = partition_size (sql.key r) tbl.
Proof. apply in_window. Qed.

Lemma in_left_join {R F} (on : R -> F -> bool) (rs : list R) (fs : list F)
  (r : R) (f : option F) :
  In (r, f) (sql.left_join on rs fs) <->
  In r rs /\ match f with
             | None => filter (on r) fs = []
             | Some f' => In f' fs /\ on r f' = true
             end.
Proof.
  unfold sql.left_join. rewrite in_flat_map. split.
  - intros (r' & Hr' & Hin).
    destruct (filter (on r') fs) as [|m ms] eqn:E.
    + destruct Hin as [[= <- <-]|[]]. auto.
    + apply in_map_iff in Hin as (f' & [= <- <-] & Hf').
      rewrite <- E in Hf'. apply filter_In in Hf'. auto.
  - intros [Hr Hf]. exists r. split; [assumption|].
    destruct f as [f'|].
    + destruct Hf as [Hin Hon].
      assert (Hm : In f' (filter (on r) fs)) by (apply filter_In; auto).
      destruct (filter (on r) fs) as [|m ms]; [contradiction|].
      apply in_map_iff. eauto.
    + rewrite Hf. now left.
Qed.

Lemma left_join_covers {R F} (on : R -> F -> bool) (rs : list R)
  (fs : list F) (r : R) :
  In r rs -> exists f, In (r, f) (sql.left_join on rs fs).
Proof.
  intros Hr. destruct (filter (on r) fs) as [|m ms] eqn:E.
  - exists None. apply in_left_join. auto.
  - exists (Some m). apply in_left_join. split; [assumption|].
    assert (Hm : In m (filter (on r) fs)) by (rewrite E; now left).
    now apply filter_In in Hm.
Qed.

(** The groups of the GROUP BY: one for every key that has a row, with the
    size of its partition as [total_count]. *)
Lemma in_groups (tbl : list db.JobPosting) (g : K * Z) :
  In g (map (@sql.group_of K) (joined tbl)) <->
  (exists d, In (fst g, d) (with_days tbl)) /\
  snd g = partition_size (fst g) tbl.
Proof.
  rewrite in_map_iff. split.
  - intros ([r f] & <- & Hin). apply in_left_join in Hin as [Hr _].
    apply in_ranked in Hr as [H1 H2]. simpl. eauto.
  - intros [[d Hd] Hn].
    destruct (window_covers (with_days tbl) [] (with_days tbl) _ _ Hd)
      as (r & Hr & Hk & _).
    destruct (left_join_covers (sql.on_clause key_eq) _ (filtered tbl) r Hr)
      as [f Hf].
    exists (r, f). split; [|exact Hf].
    unfold sql.group_of. simpl.
    destruct g as [k n]. simpl in *. subst k.
    f_equal. rewrite Hn. now apply in_ranked.
Qed.

(** A row of the result is the aggregate of a group that passes HAVING. *)
Lemma in_stats_query (min_postings : Z) (tbl : list db.JobPosting)
  (s : sql.StatsRow) :
  In s (stats_query min_postings tbl) <->
  exists g, s = sql.aggregate same_key (joined tbl) g /\
            In g (map (@sql.group_of K) (joined tbl)) /\
            min_postings <= snd g.
Proof.
  unfold sql.stats_query. rewrite in_order_by, filter_In, in_map_iff.
  split.
  - intros [(g & <- & Hg) Hmin].
    apply (proj1 (in_distinct _ same_group_spec _ _)) in Hg.
    exists g. simpl in Hmin. apply Z.leb_le in Hmin.
    repeat split; assumption.
  - intros (g & -> & Hg & Hmin). split.
    + exists g. split; [reflexivity|].
      now apply (proj2 (in_distinct _ same_group_spec _ _)).
    + simpl. now apply Z.leb_le.
Qed.

Lemma stats_query_total_count (min_postings : Z) (tbl : list db.JobPosting)
  (s : sql.StatsRow) :
  In s (stats_query min_postings tbl) ->
  sql.res_total_count s = partition_size (sql.res_key s) tbl /\
  min_postings <= sql.res_total_count s.
Proof.
  intros H. apply in_stats_query in H as (g & -> & Hg & Hmin).
  apply in_groups in Hg as [_ Hn]. simpl. split; [exact Hn|exact Hmin].
Qed.

(** The keys of the result: those that have a row and whose partition has at
    least [min_postings] rows. *)
Lemma stats_query_keys (min_postings : Z) (tbl : list db.JobPosting) (k : K) :
  In k (map (@sql.res_key K) (stats_query min_postings tbl)) <->
  (exists d, In (k, d) (with_days tbl)) /\
  min_postings <= partition_size k tbl.
Proof.
  rewrite in_map_iff. split.
  - intros (s & <- & Hs). apply in_stats_query in Hs as (g & -> & Hg & Hmin).
    apply in_groups in Hg as [Hd Hn]. simpl. rewrite <- Hn.
    split; assumption.
  - intros [Hd Hmin].
    exists (sql.aggregate same_key (joined tbl) (k, partition_size k tbl)).
    split; [reflexivity|].
    apply in_stats_query. eexists. split; [reflexivity|].
    split; [|exact Hmin]. apply in_groups. auto.
Qed.

(** GROUP BY yields one row per key. *)
Lemma stats_query_NoDup (min_postings : Z) (tbl : list db.JobPosting) :
  NoDup (map (@sql.res_key K) (stats_query min_postings tbl)).
Proof.
  unfold sql.stats_query.
  eapply Permutation_NoDup.
  { apply Permutation_map. symmetry. apply order_by_perm. }
  apply NoDup_map_filter. rewrite map_map. simpl.
  apply NoDup_map_on.
  - apply NoDup_distinct, same_group_spec.
  - intros g h Hg Hh E.
    apply (proj1 (in_distinct _ same_group_spec _ _)) in Hg, Hh.
    apply in_groups in Hg as [_ Hg], Hh as [_ Hh].
    destruct g as [k n], h as [k' n']. simpl in *. congruence.
Qed.

Lemma non_null_nil {A} (l : list (option A)) :
  (forall x, In x l -> x = None) -> sql.non_null l = [].
Proof.
  induction l as [|[a|] l IH]; simpl; intros H.
  - reflexivity.
  - specialize (H (Some a) (or_introl eq_refl)). discriminate.
  - apply IH. auto.
Qed.

(** A key that the ON clause never finds equal to any key (one with a NULL
    in it) joins with nothing: its AVG is NULL. *)
Lemma stats_query_unjoined (min_postings : Z) (tbl : list db.JobPosting)
  (s : sql.StatsRow) :
  In s (stats_query min_postings tbl) ->
  (forall k', key_eq (sql.res_key s) k' = false) ->
  sql.res_avg_days s = None.
Proof.
  intros H Hne. apply in_stats_query in H as (g & -> & _ & _).
  simpl in *. unfold sql.avg.
  rewrite non_null_nil; [reflexivity|].
  intros x Hx. apply in_map_iff in Hx as ([r f] & <- & Hin).
  apply filter_In in Hin as [Hin Hg].
  apply same_group_spec in Hg. subst g. simpl in *.
  destruct f as [f|]; [|reflexivity].
  apply in_left_join in Hin as [_ [_ Hon]].
  unfold sql.on_clause in Hon. rewrite Hne in Hon. discriminate.
Qed.

End QueryFacts.

Section PartitionFacts.
Context {K : Type}.
Variable key_of : db.JobPosting -> K.
Variable same_key : K -> K -> bool.

Lemma partition_size_filter (k : K) (tbl : list db.JobPosting) :
  sql.partition_size key_of same_key k tbl
  = Z.of_nat (List.length
      (filter (fun p => same_key k (key_of p) && db.has_days p) tbl)).
Proof.
  unfold sql.partition_size, sql.partition_of, db.has_days. f_equal.
  rewrite length_map.
  induction tbl as [|p tbl IH]; simpl; [reflexivity|].
  destruct (db.days_to_hire p); simpl.
  - destruct (same_key k (key_of p)); simpl; now rewrite IH.
  - rewrite andb_false_r. exact IH.
Qed.

Lemma partition_inhabited (k : K) (tbl : list db.JobPosting) :
  (forall a, same_key a a = true) ->
  (exists d, In (k, d) (sql.with_days key_of tbl)) ->
  0 < sql.partition_size key_of same_key k tbl.
Proof.
  intros Hrefl [d Hd]. unfold sql.partition_size, sql.partition_of.
  rewrite length_map.
  assert (Hin : In (k, d) (filter (fun r => same_key k (fst r))
                                  (sql.with_days key_of tbl))).
  { apply filter_In. split; [assumption|]. simpl. apply Hrefl. }
  destruct (filter _ _); [contradiction|]. simpl. lia.
Qed.

Lemma partition_empty (k : K) (tbl : list db.JobPosting) :
  (forall a b, same_key a b = true -> a = b) ->
  0 < sql.partition_size key_of same_key k tbl ->
  exists d, In (k, d) (sql.with_days key_of tbl).
Proof.
  intros Heq. unfold sql.partition_size, sql.partition_of.
  rewrite length_map.
  destruct (filter _ _) as [|[k' d] l] eqn:E; simpl; [lia|]. intros _.
  assert (Hin : In (k', d) (filter (fun r => same_key k (fst r))
                                   (sql.with_days key_of tbl)))
    by (rewrite E; now left).
  apply filter_In in Hin as [Hin Hk]. simpl in Hk. apply Heq in Hk.
  subst. eauto.
Qed.

End PartitionFacts.

Section KeyFacts.
Import db cli.

Lemma opt_eqb_spec (a b : option string) : sql.opt_eqb a b = true <-> a = b.
Proof.
  destruct a, b; simpl; try rewrite String.eqb_eq;
    split; congruence.
Qed.

Lemma country_same_spec (a b : string * option string) :
  country_same a b = true <-> a = b.
Proof.
  unfold country_same. destruct a, b. simpl.
  rewrite andb_true_iff, String.eqb_eq, opt_eqb_spec.
  split; [intros [-> ->]; reflexivity | intros [= -> ->]; auto].
Qed.

Lemma country_eq_null (job : string) (k : string * option string) :
  country_eq (job, None) k = false.
Proof. unfold country_eq. simpl. apply andb_false_r. Qed.

Lemma opt_eqb_sym (a b : option string) :
  sql.opt_eqb a b = sql.opt_eqb b a.
Proof. destruct a, b; simpl; auto using String.eqb_sym. Qed.

Lemma country_partition_size (job cc : string) (tbl : list JobPosting) :
  sql.partition_size country_key country_same (job, Some cc) tbl
  = country_postings job cc tbl.
Proof.
  rewrite partition_size_filter. unfold country_postings. do 2 f_equal.
  apply filter_ext. intros p. unfold country_same, country_key.
  cbn [fst snd].
  now rewrite (String.eqb_sym job), (opt_eqb_sym (Some cc)).
Qed.

Lemma countryless_partition_size (job : string) (tbl : list JobPosting) :
  sql.partition_size country_key country_same (job, None) tbl
  = countryless_postings job tbl.
Proof.
  rewrite partition_size_filter. unfold countryless_postings. do 2 f_equal.
  apply filter_ext. intros p. unfold country_same, country_key.
  cbn [fst snd].
  now rewrite (String.eqb_sym job), (opt_eqb_sym None).
Qed.

Lemma global_partition_size (job : string) (tbl : list JobPosting) :
  sql.partition_size standard_job_id String.eqb job tbl
  = job_postings job tbl.
Proof.
  rewrite partition_size_filter. unfold job_postings. do 2 f_equal.
  apply filter_ext. intros p. now rewrite (String.eqb_sym job).
Qed.

End KeyFacts.

(* ===================================================================== *)
(** * The snapshot that a run inserts                                     *)
(* ===================================================================== *)

Section SnapshotFacts.
Import py db cli.

Lemma insert_row_key (n : nat) (o : DaysToHireStatistics)
  (r : StatisticsRow) :
  insert_row n o = Some r ->
  row_key r = obj_key o /\ obj_avg_days o <> None /\
  row_job_postings_number r = obj_job_postings_number o.
Proof.
  unfold insert_row.
  destruct (obj_min_days o), (obj_avg_days o), (obj_max_days o);
    try discriminate.
  intros [= <-]. repeat split. discriminate.
Qed.

Lemma insert_row_any_id (n m : nat) (o : DaysToHireStatistics)
  (r : StatisticsRow) :
  insert_row n o = Some r ->
  exists r', insert_row m o = Some r' /\ record_of r' = record_of r.
Proof.
  unfold insert_row.
  destruct (obj_min_days o), (obj_avg_days o), (obj_max_days o);
    try discriminate.
  intros [= <-]. eexists. split; reflexivity.
Qed.

Lemma insert_rows_keys (n : nat) (objs : list DaysToHireStatistics)
  (rows : list StatisticsRow) :
  insert_rows n objs = Some rows ->
  map row_key rows = map obj_key objs /\
  forall o, In o objs -> obj_avg_days o <> None.
Proof.
  revert n rows. induction objs as [|o objs IH]; simpl; intros n rows.
  - intros [= <-]. split; [reflexivity|contradiction].
  - destruct (insert_row n o) as [r|] eqn:Er; [|discriminate].
    destruct (insert_rows (S n) objs) as [rs|] eqn:Ers; [|discriminate].
    intros [= <-]. apply insert_row_key in Er as (Hk & Ha & _).
    destruct (IH _ _ Ers) as [IHk IHa]. simpl. split.
    + now rewrite Hk, IHk.
    + intros o' [<-|Hin]; auto.
Qed.

Lemma insert_rows_any_id (n m : nat) (objs : list DaysToHireStatistics)
  (rows : list StatisticsRow) :
  insert_rows n objs = Some rows ->
  exists rows', insert_rows m objs = Some rows' /\
                map record_of rows' = map record_of rows.
Proof.
  revert n m rows. induction objs as [|o objs IH]; simpl; intros n m rows.
  - intros [= <-]. exists []. split; reflexivity.
  - destruct (insert_row n o) as [r|] eqn:Er; [|discriminate].
    destruct (insert_rows (S n) objs) as [rs|] eqn:Ers; [|discriminate].
    intros [= <-].
    destruct (insert_row_any_id n m o r Er) as (r' & -> & Hr').
    destruct (IH _ (S m) _ Ers) as (rs' & -> & Hrs').
    eexists. split; [reflexivity|]. simpl. now rewrite Hr', Hrs'.
Qed.

(** A flush that fails has met an object with a NULL in a NOT NULL column. *)
Lemma insert_rows_rejects (n : nat) (objs : list DaysToHireStatistics) :
  insert_rows n objs = None ->
  exists o, In o objs /\ insert_row 0 o = None.
Proof.
  revert n. induction objs as [|o objs IH]; simpl; intros n;
    [discriminate|].
  destruct (insert_row n o) as [r|] eqn:Er.
  - destruct (insert_rows (S n) objs) eqn:Ers; [discriminate|].
    intros _. destruct (IH _ Ers) as (o' & Hin & Ho'). eauto.
  - intros _. exists o. split; [now left|].
    revert Er. unfold insert_row.
    destruct (obj_min_days o), (obj_avg_days o), (obj_max_days o);
      congruence.
Qed.

Lemma NoDup_append {A} (l1 l2 : list A) :
  NoDup l1 -> NoDup l2 -> (forall x, In x l1 -> In x l2 -> False) ->
  NoDup (l1 ++ l2).
Proof.
  induction 1 as [|a l1 Hn Hl IH]; simpl; intros H2 Hd; [assumption|].
  constructor.
  - rewrite in_app_iff. intros [H|H]; [contradiction|].
    apply (Hd a); auto.
  - apply IH; [assumption|]. intros x Hx. apply Hd. now right.
Qed.

Lemma country_record_keys (min_postings : Z) (tbl : list JobPosting) :
  map obj_key (map country_record (COUNTRY_STATS_QUERY min_postings tbl))
  = map (@sql.res_key _) (COUNTRY_STATS_QUERY min_postings tbl).
Proof.
  rewrite map_map. apply map_ext. intros [[job cc] n mn av mx]. reflexivity.
Qed.

Lemma global_record_keys (min_postings : Z) (tbl : list JobPosting) :
  map obj_key (map global_record (GLOBAL_STATS_QUERY min_postings tbl))
  = map (fun job => (job, None))
        (map (@sql.res_key _) (GLOBAL_STATS_QUERY min_postings tbl)).
Proof.
  rewrite !map_map. apply map_ext. intros s. reflexivity.
Qed.

(** The per-country query also returns a row for the postings of a job that
    have no country, and that row has no average: in the ON clause
    [r.country_code = f.country_code] is not true of two NULLs. *)
Lemma country_query_null_country (min_postings : Z) (tbl : list JobPosting)
  (o : DaysToHireStatistics) :
  In o (map country_record (COUNTRY_STATS_QUERY min_postings tbl)) ->
  obj_country_code o = None ->
  obj_avg_days o = None.
Proof.
  intros Hin Hc. apply in_map_iff in Hin as (s & <- & Hs).
  unfold country_record in *. simpl in *.
  eapply stats_query_unjoined; [exact country_same_spec|exact Hs|].
  intros k'. destruct (sql.res_key s) as [job cc]. simpl in Hc. subst cc.
  apply country_eq_null.
Qed.

(** When every computed object has an average, no two of them have the same
    key. *)
Lemma computed_keys_NoDup (min_postings : Z) (tbl : list JobPosting) :
  (forall o, In o (computed min_postings tbl) -> obj_avg_days o <> None) ->
  NoDup (map obj_key (computed min_postings tbl)).
Proof.
  intros Havg. unfold computed in *. rewrite map_app. apply NoDup_append.
  - rewrite country_record_keys.
    apply stats_query_NoDup, country_same_spec.
  - rewrite global_record_keys. apply NoDup_map_on.
    + apply stats_query_NoDup. intros a b. apply String.eqb_eq.
    + intros x y _ _ [= ->]. reflexivity.
  - intros [job cc] Hc Hg.
    rewrite global_record_keys in Hg.
    apply in_map_iff in Hg as (job' & [= <- <-] & _).
    apply in_map_iff in Hc as (o & Hk & Ho).
    apply (Havg o); [apply in_or_app; now left|].
    apply (country_query_null_country min_postings tbl o Ho).
    unfold obj_key in Hk. congruence.
Qed.

End SnapshotFacts.

Section ThresholdFacts.
Import py db cli.

Lemma country_query_keys (min_postings : Z) (tbl : list JobPosting)
  (k : string * option string) :
  In k (map (@sql.res_key _) (COUNTRY_STATS_QUERY min_postings tbl)) <->
  (exists d, In (k, d) (sql.with_days country_key tbl)) /\
  min_postings <= sql.partition_size country_key country_same k tbl.
Proof. apply stats_query_keys, country_same_spec. Qed.

Lemma global_query_keys (min_postings : Z) (tbl : list JobPosting)
  (job : string) :
  In job (map (@sql.res_key _) (GLOBAL_STATS_QUERY min_postings tbl)) <->
  (exists d, In (job, d) (sql.with_days standard_job_id tbl)) /\
  min_postings <= sql.partition_size standard_job_id String.eqb job tbl.
Proof. apply stats_query_keys. intros a b. apply String.eqb_eq. Qed.

Lemma computed_country_key (min_postings : Z) (tbl : list JobPosting)
  (job cc : string) :
  In (job, Some cc) (map obj_key (computed min_postings tbl)) <->
  0 < country_postings job cc tbl /\
  min_postings <= country_postings job cc tbl.
Proof.
  unfold computed. rewrite map_app, in_app_iff, country_record_keys,
    global_record_keys.
  rewrite country_query_keys, country_partition_size. split.
  - intros [[Hd Hmin]|Hg].
    + split; [|assumption]. rewrite <- country_partition_size.
      apply partition_inhabited; [|assumption].
      intros a. now apply country_same_spec.
    + apply in_map_iff in Hg as (? & [=] & _).
  - intros [Hpos Hmin]. left. split; [|assumption].
    rewrite <- country_partition_size in Hpos.
    apply partition_empty in Hpos; [assumption|].
    intros a b. apply country_same_spec.
Qed.

Lemma computed_countryless (min_postings : Z) (tbl : list JobPosting)
  (job : string) :
  (forall o, In o (computed min_postings tbl) -> obj_avg_days o <> None) ->
  0 < countryless_postings job tbl ->
  countryless_postings job tbl < min_postings.
Proof.
  intros Havg Hpos.
  destruct (Z.lt_ge_cases (countryless_postings job tbl) min_postings)
    as [|Hmin]; [assumption|exfalso].
  rewrite <- countryless_partition_size in Hpos, Hmin.
  apply partition_empty in Hpos; [|intros a b; apply country_same_spec].
  assert (Hk : In (job, None)
                 (map (@sql.res_key _) (COUNTRY_STATS_QUERY min_postings tbl))).
  { apply country_query_keys. auto. }
  apply in_map_iff in Hk as (s & Hs & Hin).
  apply (Havg (country_record s)).
  - unfold computed. apply in_or_app. left. now apply in_map.
  - eapply country_query_null_country; [apply in_map; exact Hin|].
    simpl. now rewrite Hs.
Qed.

Lemma computed_global_key (min_postings : Z) (tbl : list JobPosting)
  (job : string) :
  (forall o, In o (computed min_postings tbl) -> obj_avg_days o <> None) ->
  In (job, None) (map obj_key (computed min_postings tbl)) <->
  0 < job_postings job tbl /\ min_postings <= job_postings job tbl.
Proof.
  intros Havg.
  assert (Hspec : forall a b, String.eqb a b = true <-> a = b)
    by (intros; apply String.eqb_eq).
  assert (Hglob :
    In (job, @None string)
       (map obj_key (map global_record (GLOBAL_STATS_QUERY min_postings tbl)))
    <-> 0 < job_postings job tbl /\ min_postings <= job_postings job tbl).
  { rewrite global_record_keys, in_map_iff. split.
    - intros (job' & [= ->] & Hin).
      apply global_query_keys in Hin as [Hd Hmin].
      rewrite global_partition_size in Hmin. split; [|assumption].
      rewrite <- global_partition_size.
      apply partition_inhabited; [apply String.eqb_refl|assumption].
    - intros [Hpos Hmin]. exists job. split; [reflexivity|].
      apply global_query_keys.
      rewrite global_partition_size. split; [|assumption].
      rewrite <- global_partition_size in Hpos.
      apply partition_empty in Hpos; [assumption|]. intros a b.
      apply Hspec. }
  unfold computed in *. rewrite map_app, in_app_iff, Hglob.
  split; [|auto]. intros [Hc|H]; [exfalso|assumption].
  apply in_map_iff in Hc as (o & Hk & Ho).
  apply (Havg o); [apply in_or_app; now left|].
  apply (country_query_null_country min_postings tbl o Ho).
  unfold obj_key in Hk. congruence.
Qed.

(** The objects of a run come from partitions that reach the threshold. *)
Lemma computed_reach_threshold (min_postings : Z) (tbl : list JobPosting)
  (o : DaysToHireStatistics) :
  In o (computed min_postings tbl) ->
  min_postings <= obj_job_postings_number o.
Proof.
  unfold computed. rewrite in_app_iff, !in_map_iff.
  intros [(s & <- & Hs)|(s & <- & Hs)]; simpl.
  - now apply (stats_query_total_count _ _ _ _ country_same_spec) in Hs.
  - apply (stats_query_total_count standard_job_id String.eqb) in Hs;
      [tauto|]. intros a b. apply String.eqb_eq.
Qed.

Lemma rows_for_count (job : string) (cc : option string)
  (rows : list StatisticsRow) :
  NoDup (map row_key rows) ->
  (In (job, cc) (map row_key rows) ->
   List.length (rows_for job cc rows) = 1%nat) /\
  (~ In (job, cc) (map row_key rows) -> rows_for job cc rows = []).
Proof.
  intros Hnd.
  destruct (count_if_NoDup row_key
              (fun k => String.eqb (fst k) job && sql.opt_eqb (snd k) cc)
              (job, cc) rows) as [H1 H0]; [|assumption|].
  - intros [j c]. simpl.
    rewrite andb_true_iff, String.eqb_eq, opt_eqb_spec.
    split; [intros [-> ->]; reflexivity | intros [= -> ->]; auto].
  - split; [exact H1|]. intros Hn. apply H0 in Hn.
    unfold sql.count_if in Hn. now apply length_zero_iff_nil.
Qed.

End ThresholdFacts.

(* ===================================================================== *)
(** * Properties of the aggregation run                                   *)
(* ===================================================================== *)

Section RunProperties.
Import py db cli.

(** A run that returns has inserted every computed object. *)
Lemma main_returned (d d' : Database) (p : FaultPlan) (min_postings : Z) :
  main d p min_postings = (Returned tt, d') ->
  job_posting d' = job_posting d /\
  insert_rows (id_seq d) (computed min_postings (job_posting d))
  = Some (days_to_hire_statistics d').
Proof.
  rewrite main_eq.
  destruct (fault_at 0 p); [discriminate|].
  destruct (fault_at 1 p); [discriminate|].
  destruct (fault_at 2 p); [discriminate|].
  destruct (fault_at 3 p); [discriminate|].
  destruct (fault_at 4 p); [discriminate|].
  destruct (insert_rows _ _) as [rows|]; [|discriminate].
  intros [= <-]. split; reflexivity.
Qed.

(** C1 (amended).  A run commits the DELETE on its own and the inserts
    together: when it raises before that first commit is done the summary
    table is the previous snapshot, when it raises later the table is empty,
    and when it returns the table is the whole new snapshot.  The postings
    are never touched. *)
Theorem run_leaves_old_empty_or_new (d d' : Database) (p : FaultPlan)
  (min_postings : Z) (r : Outcome unit) :
  main d p min_postings = (r, d') ->
  job_posting d' = job_posting d /\
  match r with
  | Raised _ =>
      days_to_hire_statistics d'
      = (if delete_committed p then [] else days_to_hire_statistics d)
  | Returned _ =>
      delete_committed p = true /\
      insert_rows (id_seq d) (computed min_postings (job_posting d))
      = Some (days_to_hire_statistics d')
  end.
Proof.
  rewrite main_eq. unfold delete_committed.
  destruct (fault_at 0 p); [intros [= <- <-]; auto|].
  destruct (fault_at 1 p); [intros [= <- <-]; auto|].
  destruct (fault_at 2 p); [intros [= <- <-]; auto|].
  destruct (fault_at 3 p); [intros [= <- <-]; auto|].
  destruct (fault_at 4 p); [intros [= <- <-]; auto|].
  destruct (insert_rows _ _) as [rows|]; intros [= <- <-]; auto.
Qed.

Lemma run_leaves_old_empty_or_new_witness :
  job_posting (sample.stale sample.ten_postings)
  = job_posting (sample.stale sample.ten_postings) /\
  days_to_hire_statistics (sample.stale sample.ten_postings)
  = (if delete_committed [None; Some "deadlock detected"] then []
     else days_to_hire_statistics (sample.stale sample.ten_postings)).
Proof.
  apply (run_leaves_old_empty_or_new
           (sample.stale sample.ten_postings)
           (sample.stale sample.ten_postings)
           [None; Some "deadlock detected"] 5
           (Raised (Error "deadlock detected"))).
  vm_compute. reflexivity.
Defined.

(** C1 as stated fails: the second query raises, after the DELETE and before
    the final commit, and the summary table is left empty, not as it was. *)
Lemma failure_after_delete_empties_summary :
  main (sample.stale sample.ten_postings)
       [None; None; None; Some "connection lost"] 5
  = (Raised (Error "connection lost"),
     emptied (sample.stale sample.ten_postings)) /\
  days_to_hire_statistics (emptied (sample.stale sample.ten_postings))
  <> days_to_hire_statistics (sample.stale sample.ten_postings).
Proof.
  split; [vm_compute; reflexivity|vm_compute; discriminate].
Qed.

(** The per-country query returns a row with a NULL country code and a NULL
    average for five postings without a country; the global query returns a
    row for the same job.  The flush of the final commit refuses the former,
    and the run ends with the summary table empty. *)
Example countryless_partition_aborts_run :
  map (fun o => (obj_key o, obj_avg_days o))
      (computed 5 sample.countryless_postings)
  = [("job4", None, None); ("job4", None, Some 12%Q)] /\
  main (sample.stale sample.countryless_postings) [] 5
  = (Raised IntegrityError,
     mkDatabase sample.countryless_postings [] 3).
Proof.
  split; vm_compute; reflexivity.
Qed.

(** C2.  After a run that completes, the summary table has at most one row
    per pair of [standard_job_id] and [country_code], the pairs with a NULL
    country code included. *)
Theorem completed_run_one_row_per_key (d d' : Database) (p : FaultPlan)
  (min_postings : Z) :
  main d p min_postings = (Returned tt, d') ->
  NoDup (map row_key (days_to_hire_statistics d')).
Proof.
  intros H. apply main_returned in H as [_ H].
  apply insert_rows_keys in H as [-> Havg].
  now apply computed_keys_NoDup.
Qed.

Lemma completed_run_one_row_per_key_witness :
  NoDup (map row_key
    (days_to_hire_statistics
       (snd (main (sample.stale sample.mixed_postings) [] 5)))).
Proof.
  apply (completed_run_one_row_per_key
           (sample.stale sample.mixed_postings) _ [] 5).
  vm_compute. reflexivity.
Defined.

(** C5.  The threshold decides which keys have a row.  A run that meets no
    datastore fault can only raise on an object it computed, and it computes
    objects for partitions that reach the threshold only: a partition below
    it is passed over without an error.  After a run that completes, a
    job and country with postings has exactly one row when their number
    reaches [min_postings] and none when it is below; the same holds for a
    job, over all its postings, and its global row; and the postings of a job
    that have no country, a partition of the per-country query, are below the
    threshold, so that the rows with a NULL country code are the global
    ones. *)
Theorem threshold_decides_rows (d : Database) (p : FaultPlan)
  (min_postings : Z) :
  (forall e d',
     main d p min_postings = (Raised e, d') -> fault_free p = true ->
     exists o, In o (computed min_postings (job_posting d)) /\
               min_postings <= obj_job_postings_number o /\
               insert_row 0 o = None) /\
  (forall d',
     main d p min_postings = (Returned tt, d') ->
     (forall job cc,
        let n := country_postings job cc (job_posting d) in
        (0 < n -> min_postings <= n ->
         List.length (rows_for job (Some cc) (days_to_hire_statistics d'))
         = 1%nat) /\
        (n < min_postings ->
         rows_for job (Some cc) (days_to_hire_statistics d') = [])) /\
     (forall job,
        let n := job_postings job (job_posting d) in
        (0 < n -> min_postings <= n ->
         List.length (rows_for job None (days_to_hire_statistics d'))
         = 1%nat) /\
        (n < min_postings ->
         rows_for job None (days_to_hire_statistics d') = [])) /\
     (forall job,
        0 < countryless_postings job (job_posting d) ->
        countryless_postings job (job_posting d) < min_postings)).
Proof.
  split.
  - intros e d'. rewrite main_eq. unfold fault_free.
    destruct (fault_at 0 p); [discriminate 2|].
    destruct (fault_at 1 p); [discriminate 2|].
    destruct (fault_at 2 p); [discriminate 2|].
    destruct (fault_at 3 p); [discriminate 2|].
    destruct (fault_at 4 p); [discriminate 2|].
    destruct (insert_rows _ _) as [rows|] eqn:E; [discriminate|].
    intros _ _. apply insert_rows_rejects in E as (o & Hin & Ho).
    exists o. split; [assumption|]. split; [|assumption].
    now apply computed_reach_threshold in Hin.
  - intros d' H. apply main_returned in H as [_ H].
    pose proof (insert_rows_keys _ _ _ H) as [Hk Havg].
    assert (Hnd : NoDup (map row_key (days_to_hire_statistics d')))
      by (rewrite Hk; now apply computed_keys_NoDup).
    split; [|split].
    + intros job cc n.
      destruct (rows_for_count job (Some cc) _ Hnd) as [H1 H0].
      rewrite Hk, computed_country_key in H1, H0. fold n in H1, H0.
      split; [auto|]. intros Hlt. apply H0. lia.
    + intros job n.
      destruct (rows_for_count job None _ Hnd) as [H1 H0].
      rewrite Hk, (computed_global_key _ _ _ Havg) in H1, H0.
      fold n in H1, H0.
      split; [auto|]. intros Hlt. apply H0. lia.
    + intros job. now apply computed_countryless.
Qed.

Lemma threshold_decides_rows_witness :
  let d' := snd (main (sample.stale sample.mixed_postings) [] 5) in
  List.length (rows_for "job2" (Some "DE") (days_to_hire_statistics d'))
  = 1%nat /\
  rows_for "job1" (Some "US") (days_to_hire_statistics d') = [] /\
  List.length (rows_for "job2" None (days_to_hire_statistics d')) = 1%nat /\
  rows_for "job1" None (days_to_hire_statistics d') = [].
Proof.
  intros d'.
  destruct (threshold_decides_rows (sample.stale sample.mixed_postings) [] 5)
    as [_ H].
  destruct (H d') as (Hc & Hg & _); [vm_compute; reflexivity|].
  split; [|split; [|split]].
  - apply (Hc "job2" "DE"); vm_compute; [reflexivity|discriminate].
  - apply (Hc "job1" "US"); vm_compute; reflexivity.
  - apply (Hg "job2"); vm_compute; [reflexivity|discriminate].
  - apply (Hg "job1"); vm_compute; reflexivity.
Defined.

(** C8.  Two runs in succession over the same postings and with the same
    threshold, each of which completes, leave the same records in the summary
    table: the same rows with the same values, in the same order.  (The
    surrogate [id] of a row comes from the sequence and is not part of the
    record.)  Moreover, after a run that completed, a second run meeting no
    fault completes too. *)
Theorem rerun_same_records (d d1 d2 : Database) (p1 p2 : FaultPlan)
  (min_postings : Z) :
  main d p1 min_postings = (Returned tt, d1) ->
  main d1 p2 min_postings = (Returned tt, d2) ->
  job_posting d2 = job_posting d /\
  map record_of (days_to_hire_statistics d2)
  = map record_of (days_to_hire_statistics d1) /\
  exists d3, main d1 [] min_postings = (Returned tt, d3).
Proof.
  intros H1 H2.
  apply main_returned in H1 as [F1 R1], H2 as [F2 R2].
  rewrite F1 in *. split; [assumption|]. split.
  - destruct (insert_rows_any_id _ (id_seq d1) _ _ R1) as (rows & E & Hr).
    rewrite R2 in E. injection E as <-. exact Hr.
  - rewrite main_eq. simpl. rewrite F1, R2. eauto.
Qed.

Lemma rerun_same_records_witness :
  let d1 := snd (main (sample.stale sample.mixed_postings) [] 5) in
  let d2 := snd (main d1 [] 5) in
  job_posting d2 = job_posting (sample.stale sample.mixed_postings) /\
  map record_of (days_to_hire_statistics d2)
  = map record_of (days_to_hire_statistics d1) /\
  exists d3, main d1 [] 5 = (Returned tt, d3).
Proof.
  apply (rerun_same_records (sample.stale sample.mixed_postings) _ _
           [] [] 5); vm_compute; reflexivity.
Defined.

End RunProperties.

(* ===================================================================== *)
(** * The statistics of a partition without repeated values               *)
(* ===================================================================== *)

Section UntiedValues.
Context {K : Type}.
Variable key_of : db.JobPosting -> K.
Variables same_key key_eq key_leb : K -> K -> bool.
Hypothesis same_key_spec : forall a b, same_key a b = true <-> a = b.
Hypothesis key_eq_sound : forall a b, key_eq a b = true -> a = b.

Local Abbreviation ranked := (sql.ranked key_of same_key).
Local Abbreviation filtered := (sql.filtered key_of same_key).
Local Abbreviation joined := (sql.joined key_of same_key key_eq).
Local Abbreviation on_clause := (sql.on_clause key_eq).
Local Abbreviation keep :=
  (fun r : sql.Ranked (K := K) =>
     (1 <? sql.decile_low r)%nat && (1 <? sql.decile_high r)%nat).

Lemma filter_map_comm {A B} (f : A -> B) (q : B -> bool) (l : list A) :
  filter q (map f l) = map f (filter (fun a => q (f a)) l).
Proof.
  induction l as [|a l IH]; simpl; [reflexivity|].
  destruct (q (f a)); simpl; now rewrite IH.
Qed.

Lemma filter_swap {A} (q1 q2 : A -> bool) (l : list A) :
  filter q1 (filter q2 l) = filter q2 (filter q1 l).
Proof.
  induction l as [|a l IH]; simpl; [reflexivity|].
  destruct (q1 a) eqn:E1, (q2 a) eqn:E2; simpl; rewrite ?E1, ?E2, IH;
    reflexivity.
Qed.

Lemma window_rows (all seen rest : list (K * Z)) :
  map (fun r => (sql.key r, sql.days_to_hire r))
      (sql.window same_key all seen rest) = rest.
Proof.
  revert seen. induction rest as [|[k d] rest IH]; simpl; intros seen;
    [reflexivity|].
  now rewrite IH.
Qed.

(** The rows of [ranked] for a key carry the values of its partition, in the
    order of the table. *)
Lemma ranked_partition (k : K) (tbl : list db.JobPosting) :
  map (@sql.days_to_hire K)
      (filter (fun r => same_key k (sql.key r)) (ranked tbl))
  = sql.partition_values key_of same_key k tbl.
Proof.
  unfold sql.partition_values, sql.partition_of, sql.ranked.
  rewrite <- (window_rows (sql.with_days key_of tbl) []
                          (sql.with_days key_of tbl)) at 3.
  rewrite filter_map_comm, map_map. reflexivity.
Qed.

(** In a list whose selected elements have pairwise different marks, the
    selected elements with the mark of [r] are [r] alone. *)
Lemma filter_single {A B} (mark : A -> B) (sel hit : A -> bool)
  (l : list A) (r : A) :
  NoDup (map mark (filter sel l)) ->
  In r l -> sel r = true ->
  (forall a, hit a = true <-> sel a = true /\ mark a = mark r) ->
  filter hit l = [r].
Proof.
  intros Hnd Hin Hsel Hhit.
  assert (Hr : hit r = true) by (apply Hhit; auto).
  induction l as [|a l IH]; simpl in *; [contradiction|].
  destruct (hit a) eqn:Ea.
  - apply Hhit in Ea as [Sa Ma]. rewrite Sa in Hnd. simpl in Hnd.
    inversion Hnd as [|? ? Hn Hl]; subst.
    assert (Hnone : forall b, In b l -> hit b = false).
    { intros b Hb. destruct (hit b) eqn:Eb; [|reflexivity].
      apply Hhit in Eb as [Sb Mb]. exfalso. apply Hn.
      rewrite Ma, <- Mb. apply in_map, filter_In. auto. }
    destruct Hin as [->|Hin].
    + f_equal. clear - Hnone.
      induction l as [|b l IH]; simpl; [reflexivity|].
      rewrite (Hnone b) by now left. apply IH.
      intros c Hc. apply Hnone. now right.
    + rewrite (Hnone r Hin) in Hr. discriminate.
  - destruct Hin as [->|Hin]; [congruence|].
    apply IH; [|assumption].
    destruct (sel a); [|assumption].
    simpl in Hnd. now inversion Hnd.
Qed.

(** In a partition without repeated values a row joins with itself if it is
    kept, and with nothing otherwise. *)
Lemma join_partner (k : K) (tbl : list db.JobPosting) (r : sql.Ranked) :
  key_eq k k = true ->
  NoDup (sql.partition_values key_of same_key k tbl) ->
  In r (ranked tbl) -> sql.key r = k ->
  filter (on_clause r) (filtered tbl) = if keep r then [r] else [].
Proof.
  intros Hkk Hnd Hin Hk. unfold sql.filtered.
  rewrite filter_swap.
  rewrite (filter_single (@sql.days_to_hire K)
             (fun f => same_key k (sql.key f)) (on_clause r) (ranked tbl) r).
  - simpl. destruct (keep r); reflexivity.
  - now rewrite ranked_partition.
  - assumption.
  - now apply same_key_spec.
  - intros f. unfold sql.on_clause. rewrite Hk, andb_true_iff, Z.eqb_eq.
    rewrite same_key_spec. split.
    + intros [Hf Hd]. apply key_eq_sound in Hf. auto.
    + intros [<- Hd]. auto.
Qed.

Lemma filter_nothing {A} (q : A -> bool) (l : list A) :
  (forall a, In a l -> q a = false) -> filter q l = [].
Proof.
  induction l as [|a l IH]; simpl; intros H; [reflexivity|].
  rewrite (H a) by now left. apply IH. auto.
Qed.

Lemma untied_members_of (k : K) (tbl : list db.JobPosting)
  (l : list sql.Ranked) :
  key_eq k k = true ->
  NoDup (sql.partition_values key_of same_key k tbl) ->
  (forall r, In r l -> In r (ranked tbl)) ->
  filter (fun j => sql.same_group same_key
                     (k, sql.partition_size key_of same_key k tbl)
                     (sql.group_of j))
         (sql.left_join on_clause l (filtered tbl))
  = map (fun r => (r, if keep r then Some r else None))
        (filter (fun r => same_key k (sql.key r)) l).
Proof.
  intros Hkk Hnd. unfold sql.left_join.
  induction l as [|r l IH]; intros Hall; [reflexivity|].
  cbn [flat_map]. rewrite filter_app, IH by (intros; apply Hall; now right).
  assert (Hr : In r (ranked tbl)) by (apply Hall; now left).
  cbn [filter].
  destruct (same_key k (sql.key r)) eqn:Ek.
  - apply same_key_spec in Ek.
    rewrite (join_partner k tbl r Hkk Hnd Hr (eq_sym Ek)).
    assert (Hg : sql.same_group same_key
                   (k, sql.partition_size key_of same_key k tbl)
                   (sql.key r, sql.total_count r) = true).
    { unfold sql.same_group. simpl. apply andb_true_iff. split.
      - now apply same_key_spec.
      - apply Z.eqb_eq. rewrite Ek. symmetry.
        now apply (in_ranked key_of same_key). }
    cbn [map]. cbv beta.
    destruct ((1 <? sql.decile_low r)%nat && (1 <? sql.decile_high r)%nat);
      cbn [map filter app]; unfold sql.group_of; cbn [fst];
      rewrite Hg; reflexivity.
  - rewrite filter_nothing; [reflexivity|].
    intros [r' f] Hj. unfold sql.group_of, sql.same_group. simpl.
    assert (r' = r) as ->.
    { destruct (filter (on_clause r) (filtered tbl)).
      - destruct Hj as [[= <- _]|[]]. reflexivity.
      - apply in_map_iff in Hj as (? & [= <- _] & _). reflexivity. }
    now rewrite Ek.
Qed.

(** The joined rows of the group of such a partition: its rows, once each. *)
Lemma untied_members (k : K) (tbl : list db.JobPosting) :
  key_eq k k = true ->
  NoDup (sql.partition_values key_of same_key k tbl) ->
  filter (fun j => sql.same_group same_key
                     (k, sql.partition_size key_of same_key k tbl)
                     (sql.group_of j))
         (joined tbl)
  = map (fun r => (r, if keep r then Some r else None))
        (filter (fun r => same_key k (sql.key r)) (ranked tbl)).
Proof.
  intros Hkk Hnd. now apply untied_members_of.
Qed.

Lemma non_null_Some {A} (l : list A) : sql.non_null (map Some l) = l.
Proof. induction l as [|a l IH]; simpl; congruence. Qed.

Lemma avg_non_null (xs : list (option Z)) :
  sql.avg xs = sql.avg (map Some (sql.non_null xs)).
Proof. unfold sql.avg. now rewrite non_null_Some. Qed.

(** The aggregates of the group of a partition without repeated values, for
    a key that the ON clause finds equal to itself. *)
Lemma untied_aggregate (k : K) (tbl : list db.JobPosting) :
  key_eq k k = true ->
  NoDup (sql.partition_values key_of same_key k tbl) ->
  let s := sql.aggregate same_key (joined tbl)
             (k, sql.partition_size key_of same_key k tbl) in
  sql.res_min_days s
  = sql.percentile_cont (1 # 10)
      (sql.partition_values key_of same_key k tbl) /\
  sql.res_max_days s
  = sql.percentile_cont (9 # 10)
      (sql.partition_values key_of same_key k tbl) /\
  sql.res_avg_days s
  = sql.avg (map Some (sql.kept_values key_of same_key k tbl)).
Proof.
  intros Hkk Hnd. simpl.
  rewrite (untied_members k tbl Hkk Hnd), !map_map. simpl.
  rewrite ranked_partition. repeat split.
  rewrite avg_non_null. do 2 f_equal.
  unfold sql.kept_values, sql.filtered. rewrite filter_swap.
  induction (filter _ (ranked tbl)) as [|r l IH]; simpl; [reflexivity|].
  destruct (keep r); simpl; now rewrite IH.
Qed.

(** Rows of the query for such partitions carry the percentiles of the
    partition and the mean of its kept values. *)
Lemma untied_statistics (min_postings : Z) (tbl : list db.JobPosting)
  (s : sql.StatsRow) :
  In s (sql.stats_query key_of same_key key_eq key_leb min_postings tbl) ->
  key_eq (sql.res_key s) (sql.res_key s) = true ->
  NoDup (sql.partition_values key_of same_key (sql.res_key s) tbl) ->
  sql.res_min_days s
  = sql.percentile_cont (1 # 10)
      (sql.partition_values key_of same_key (sql.res_key s) tbl) /\
  sql.res_max_days s
  = sql.percentile_cont (9 # 10)
      (sql.partition_values key_of same_key (sql.res_key s) tbl) /\
  sql.res_avg_days s
  = sql.avg (map Some (sql.kept_values key_of same_key (sql.res_key s) tbl)).
Proof.
  intros Hs.
  apply (in_stats_query key_of same_key key_eq key_leb same_key_spec) in Hs
    as ([k n] & -> & Hg & _).
  apply in_groups in Hg as [_ Hn].
  simpl in Hn. subst n. apply untied_aggregate.
Qed.

End UntiedValues.

Section UntiedInstances.
Import db cli.

Lemma country_eq_sound (a b : string * option string) :
  country_eq a b = true -> a = b.
Proof.
  unfold country_eq. destruct a as [j [c|]], b as [j' [c'|]]; simpl;
    rewrite ?andb_false_r; try discriminate.
  rewrite andb_true_iff, !String.eqb_eq. intros [-> ->]. reflexivity.
Qed.

(** For a job and country whose postings all differ in their number of
    days, the row of the per-country query has the 10th and 90th percentiles
    of the partition and the mean of its kept values. *)
Lemma country_statistics_untied (min_postings : Z) (tbl : list JobPosting)
  (s : sql.StatsRow) (job cc : string) :
  In s (COUNTRY_STATS_QUERY min_postings tbl) ->
  sql.res_key s = (job, Some cc) ->
  NoDup (sql.partition_values country_key country_same (job, Some cc) tbl) ->
  sql.res_min_days s
  = sql.percentile_cont (1 # 10)
      (sql.partition_values country_key country_same (job, Some cc) tbl) /\
  sql.res_max_days s
  = sql.percentile_cont (9 # 10)
      (sql.partition_values country_key country_same (job, Some cc) tbl) /\
  sql.res_avg_days s
  = sql.avg (map Some
      (sql.kept_values country_key country_same (job, Some cc) tbl)).
Proof.
  intros Hs Hk Hnd. rewrite <- Hk in *.
  apply (untied_statistics country_key country_same country_eq country_leb
           country_same_spec country_eq_sound min_postings);
    try assumption.
  rewrite Hk. unfold country_eq. simpl. now rewrite !String.eqb_refl.
Qed.

(** The same for a job whose postings all differ, and the global query. *)
Lemma global_statistics_untied (min_postings : Z) (tbl : list JobPosting)
  (s : sql.StatsRow) :
  In s (GLOBAL_STATS_QUERY min_postings tbl) ->
  NoDup (sql.partition_values standard_job_id String.eqb (sql.res_key s) tbl) ->
  sql.res_min_days s
  = sql.percentile_cont (1 # 10)
      (sql.partition_values standard_job_id String.eqb (sql.res_key s) tbl) /\
  sql.res_max_days s
  = sql.percentile_cont (9 # 10)
      (sql.partition_values standard_job_id String.eqb (sql.res_key s) tbl) /\
  sql.res_avg_days s
  = sql.avg (map Some
      (sql.kept_values standard_job_id String.eqb (sql.res_key s) tbl)).
Proof.
  intros Hs Hnd.
  apply (untied_statistics standard_job_id String.eqb String.eqb String.leb)
    with (min_postings := min_postings); try assumption.
  - intros a b. apply String.eqb_eq.
  - intros a b. apply String.eqb_eq.
  - apply String.eqb_refl.
Qed.

End UntiedInstances.

(* ===================================================================== *)
(** * The statistics of a partition with a repeated value                 *)
(* ===================================================================== *)

Section TiedValues.
Import py db cli.

(** C3 on the postings of one job and country with 10, 20, 20, 30 and 40
    days.  The run completes and inserts [min_days = 16] and
    [max_days = 34], in the country row and in the global row, while the 10th
    and 90th percentiles of the partition are 14 and 36: the join on
    [days_to_hire] pairs each of the two rows of 20 days with both kept rows
    of 20 days, and the percentiles are taken over the seven joined rows. *)
Theorem tied_values_percentiles :
  (exists d',
     main sample.tied [] 5 = (Returned tt, d') /\
     map (fun r => (row_key r, row_min_days r, row_max_days r))
         (days_to_hire_statistics d')
     = [("j", Some "US", 16, 34); ("j", None, 16, 34)]%Q) /\
  sql.partition_values country_key country_same ("j", Some "US")
                       sample.tied_postings
  = [10; 20; 20; 30; 40] /\
  sql.percentile_cont (1 # 10) [10; 20; 20; 30; 40] = Some 14%Q /\
  sql.percentile_cont (9 # 10) [10; 20; 20; 30; 40] = Some 36%Q /\
  map (fun j => sql.days_to_hire (fst j))
      (sql.joined country_key country_same country_eq sample.tied_postings)
  = [10; 20; 20; 20; 20; 30; 40].
Proof.
  split; [eexists; split|]; vm_compute; repeat split; reflexivity.
Qed.

(** C4 on the same postings.  The kept rows are those of 20, 20 and 30 days,
    of mean 70/3, and the run inserts [avg_days = 22]: in the join each kept
    row of 20 days occurs twice, and the average is taken over 20, 20, 20, 20
    and 30. *)
Theorem tied_values_average :
  (exists d',
     main sample.tied [] 5 = (Returned tt, d') /\
     map (fun r => (row_key r, row_avg_days r)) (days_to_hire_statistics d')
     = [("j", Some "US", 22); ("j", None, 22)]%Q) /\
  sql.kept_values country_key country_same ("j", Some "US")
                  sample.tied_postings
  = [20; 20; 30] /\
  sql.avg [Some 20; Some 20; Some 30] = Some (70 # 3) /\
  sql.non_null
    (map (fun j => option_map sql.days_to_hire (snd j))
       (sql.joined country_key country_same country_eq sample.tied_postings))
  = [20; 20; 20; 20; 30].
Proof.
  split; [eexists; split|]; vm_compute; repeat split; reflexivity.
Qed.

End TiedValues.

(* ===================================================================== *)
(** * The listing endpoints                                               *)
(* ===================================================================== *)

Section OrderFacts.

Lemma ascii_compare_trans (a b c : ascii) (o : comparison) :
  Ascii.compare a b = o -> Ascii.compare b c = o -> Ascii.compare a c = o.
Proof.
  unfold Ascii.compare. destruct o; intros H1 H2.
  - apply N.compare_eq_iff in H1, H2. apply N.compare_eq_iff. congruence.
  - apply N.compare_lt_iff in H1, H2. apply N.compare_lt_iff.
    eapply N.lt_trans; eassumption.
  - apply N.compare_gt_iff in H1, H2. apply N.compare_gt_iff.
    eapply N.lt_trans; eassumption.
Qed.

Lemma string_compare_lt_trans (s1 s2 s3 : string) :
  String.compare s1 s2 = Lt -> String.compare s2 s3 = Lt ->
  String.compare s1 s3 = Lt.
Proof.
  revert s2 s3. induction s1 as [|a s1 IH]; intros [|b s2] [|c s3]; simpl;
    try discriminate; try reflexivity.
  destruct (Ascii.compare a b) eqn:Eab; try discriminate;
    destruct (Ascii.compare b c) eqn:Ebc; try discriminate; intros H1 H2.
  - rewrite (ascii_compare_trans a b c Eq Eab Ebc). eauto.
  - apply Ascii.compare_eq_iff in Eab. subst. now rewrite Ebc.
  - apply Ascii.compare_eq_iff in Ebc. subst. now rewrite Eab.
  - now rewrite (ascii_compare_trans a b c Lt Eab Ebc).
Qed.

Lemma string_leb_refl (s : string) : String.leb s s = true.
Proof.
  unfold String.leb.
  replace (String.compare s s) with Eq; [reflexivity|].
  induction s as [|a s IH]; simpl; [reflexivity|].
  unfold Ascii.compare. now rewrite N.compare_refl.
Qed.

Lemma string_leb_trans (s1 s2 s3 : string) :
  String.leb s1 s2 = true -> String.leb s2 s3 = true ->
  String.leb s1 s3 = true.
Proof.
  intros H1 H2. revert H1 H2. unfold String.leb at 1 2.
  destruct (String.compare s1 s2) eqn:E12; try discriminate;
    destruct (String.compare s2 s3) eqn:E23; try discriminate; intros _ _;
    try (unfold String.leb).
  - apply String.compare_eq_iff in E12, E23. subst.
    apply string_leb_refl.
  - apply String.compare_eq_iff in E12. subst. now rewrite E23.
  - apply String.compare_eq_iff in E23. subst. now rewrite E12.
  - now rewrite (string_compare_lt_trans s1 s2 s3 E12 E23).
Qed.

Context {A : Type} (leb : A -> A -> bool).
Hypothesis leb_total : forall a b, leb a b = true \/ leb b a = true.
Hypothesis leb_trans :
  forall a b c, leb a b = true -> leb b c = true -> leb a c = true.

Lemma insert_by_sorted (x : A) (l : list A) :
  StronglySorted (fun a b => leb a b = true) l ->
  StronglySorted (fun a b => leb a b = true) (sql.insert_by leb x l).
Proof.
  induction 1 as [|y l Hs IH Hy]; simpl.
  - constructor; constructor.
  - pose proof (proj1 (Forall_forall _ _) Hy) as Hy'.
    destruct (leb x y) eqn:E.
    + constructor; [now constructor|]. constructor; [assumption|].
      apply Forall_forall. eauto.
    + constructor; [assumption|].
      apply Forall_forall. intros z Hz.
      apply (Permutation_in _ (insert_by_perm leb x l)) in Hz.
      destruct Hz as [<-|Hz]; [|auto].
      destruct (leb_total x y); congruence.
Qed.

Lemma order_by_sorted (l : list A) :
  StronglySorted (fun a b => leb a b = true) (sql.order_by leb l).
Proof.
  induction l as [|x l IH]; simpl; [constructor|].
  now apply insert_by_sorted.
Qed.

End OrderFacts.

Section ListingFacts.
Import py db api.

Lemma NoDup_order_by {A} (leb : A -> A -> bool) (l : list A) :
  NoDup l -> NoDup (sql.order_by leb l).
Proof.
  apply Permutation_NoDup. symmetry. apply order_by_perm.
Qed.

Lemma string_eqb_spec (a b : string) : String.eqb a b = true <-> a = b.
Proof. apply String.eqb_eq. Qed.

Lemma in_non_null {A} (l : list (option A)) (a : A) :
  In a (sql.non_null l) <-> In (Some a) l.
Proof.
  induction l as [|[b|] l IH]; simpl.
  - reflexivity.
  - rewrite IH. split; intros [H|H]; auto; left; congruence.
  - rewrite IH. split; [auto|]. intros [H|H]; [discriminate|assumption].
Qed.

Lemma in_select_jobs (rows : list StatisticsRow) (j : string) :
  In j (select_jobs rows) <->
  exists row, In row rows /\ row_standard_job_id row = j.
Proof.
  unfold select_jobs.
  rewrite in_order_by, (in_distinct _ string_eqb_spec), in_map_iff.
  split; intros (row & H1 & H2); eauto.
Qed.

Lemma in_select_countries (job : string) (rows : list StatisticsRow)
  (c : string) :
  In c (select_countries job rows) <->
  exists row, In row rows /\ row_standard_job_id row = job /\
              row_country_code row = Some c.
Proof.
  unfold select_countries.
  rewrite in_order_by, (in_distinct _ string_eqb_spec), in_non_null,
    in_map_iff.
  split.
  - intros (row & Hc & Hin). apply filter_In in Hin as [Hin Hj].
    apply String.eqb_eq in Hj. eauto.
  - intros (row & Hin & Hj & Hc). exists row. split; [assumption|].
    apply filter_In. split; [assumption|]. now apply String.eqb_eq.
Qed.

Lemma get_available_jobs_eq (d : Database) (p : FaultPlan) :
  get_available_jobs d p =
  match fault_at 0 p with
  | Some e =>
      Raised (HTTPException 500 ("Error retrieving available jobs: " ++ e))
  | None =>
      Returned {| available_jobs := select_jobs (days_to_hire_statistics d);
                  jobs_count :=
                    List.length (select_jobs (days_to_hire_statistics d)) |}
  end.
Proof.
  unfold get_available_jobs, with_session, try_except, execute_rows, bind,
    db_call, get_session, ret, raise, fault_at.
  destruct p as [|[e|] p]; reflexivity.
Qed.

Lemma get_available_countries_eq (job : string) (d : Database)
  (p : FaultPlan) :
  get_available_countries job d p =
  match fault_at 0 p with
  | Some e =>
      Raised (HTTPException 500
                ("Error retrieving available countries: " ++ e))
  | None =>
      Returned
        {| requested_job_id := job;
           available_countries :=
             select_countries job (days_to_hire_statistics d);
           countries_count :=
             List.length (select_countries job (days_to_hire_statistics d)) |}
  end.
Proof.
  unfold get_available_countries, with_session, try_except, execute_rows,
    bind, db_call, get_session, ret, raise, fault_at.
  destruct p as [|[e|] p]; reflexivity.
Qed.

(** X1.  [get_available_jobs] answers 500 with the text of the exception when
    the datastore call fails, and otherwise 200 with the job ids that occur
    in the summary table, each once, in ascending order, and their number. *)
Theorem available_jobs_listing (d : Database) (p : FaultPlan) :
  (forall e, fault_at 0 p = Some e ->
     get_available_jobs d p
     = Raised (HTTPException 500
                 ("Error retrieving available jobs: " ++ e))) /\
  (fault_at 0 p = None ->
   exists r,
     get_available_jobs d p = Returned r /\
     (forall j, In j (available_jobs r) <->
                exists row, In row (days_to_hire_statistics d) /\
                            row_standard_job_id row = j) /\
     NoDup (available_jobs r) /\
     StronglySorted (fun a b => String.leb a b = true) (available_jobs r) /\
     jobs_count r = List.length (available_jobs r)).
Proof.
  rewrite get_available_jobs_eq. split.
  - intros e ->. reflexivity.
  - intros ->. eexists. split; [reflexivity|]. simpl.
    split; [apply in_select_jobs|]. split; [|split; [|reflexivity]].
    + apply NoDup_order_by, NoDup_distinct, string_eqb_spec.
    + apply order_by_sorted; [apply String.leb_total|apply string_leb_trans].
Qed.

(** X2.  [get_available_countries] does not validate its argument: for every
    [standard_job_id], blank or unknown ones included, it answers 500 when
    the datastore call fails and otherwise 200 with the non-null country
    codes of the rows of that job, each once, in ascending order, and their
    number; the list is empty when the job has no row with a country. *)
Theorem available_countries_listing (job : string) (d : Database)
  (p : FaultPlan) :
  (forall e, fault_at 0 p = Some e ->
     get_available_countries job d p
     = Raised (HTTPException 500
                 ("Error retrieving available countries: " ++ e))) /\
  (fault_at 0 p = None ->
   exists r,
     get_available_countries job d p = Returned r /\
     requested_job_id r = job /\
     (forall c, In c (available_countries r) <->
                exists row, In row (days_to_hire_statistics d) /\
                            row_standard_job_id row = job /\
                            row_country_code row = Some c) /\
     NoDup (available_countries r) /\
     StronglySorted (fun a b => String.leb a b = true)
                    (available_countries r) /\
     countries_count r = List.length (available_countries r) /\
     ((forall row, In row (days_to_hire_statistics d) ->
                   row_standard_job_id row = job ->
                   row_country_code row = None) ->
      available_countries r = [] /\ countries_count r = 0%nat)).
Proof.
  rewrite get_available_countries_eq. split.
  - intros e ->. reflexivity.
  - intros ->. eexists. split; [reflexivity|]. simpl.
    split; [reflexivity|]. split; [apply in_select_countries|].
    split; [|split; [|split; [reflexivity|]]].
    + apply NoDup_order_by, NoDup_distinct, string_eqb_spec.
    + apply order_by_sorted; [apply String.leb_total|apply string_leb_trans].
    + intros Hnone.
      assert (E : select_countries job (days_to_hire_statistics d) = []).
      { destruct (select_countries job (days_to_hire_statistics d))
          as [|c l] eqn:E; [reflexivity|].
        assert (Hc : In c (select_countries job (days_to_hire_statistics d)))
          by (rewrite E; now left).
        apply in_select_countries in Hc as (row & Hin & Hj & Hc).
        rewrite (Hnone row Hin Hj) in Hc. discriminate. }
      rewrite E. split; reflexivity.
Qed.

End ListingFacts.

Section LookupFacts.
Import py db api.

Lemma find_where_clause (job : string) (cc : option string)
  (rows : list StatisticsRow) :
  (exists row, In row rows /\ row_standard_job_id row = job /\
               row_country_code row = (if truthy_opt cc then cc else None))
  <-> exists row, find (where_clause job cc) rows = Some row.
Proof.
  split.
  - intros (row & Hin & Hj & Hc).
    destruct (find (where_clause job cc) rows) as [row'|] eqn:F; [eauto|].
    apply (find_none _ _ F) in Hin.
    now rewrite (where_clause_complete job cc row Hj Hc) in Hin.
  - intros [row F]. apply find_some in F as [Hin Hw].
    apply where_clause_sound in Hw as [Hj Hc]. eauto.
Qed.

(** X3.  Listing and lookup agree on non-empty country codes: for a
    [standard_job_id] that is not blank, when the datastore answers, a
    non-empty country code is in the list of [get_available_countries] if and
    only if [get_statistics] with that code returns a record, and the record
    is of that job and country. *)
Theorem listed_country_is_served (job c : string) (d : Database)
  (p p' : FaultPlan) :
  blank job = false -> truthy c = true ->
  fault_at 0 p = None -> fault_at 0 p' = None ->
  (exists l, get_available_countries job d p = Returned l /\
             In c (available_countries l)) <->
  (exists r, get_statistics job (Some c) d p' = Returned r /\
             standard_job_id r = job /\ country_code r = Some c).
Proof.
  intros Hb Hc Hp Hp'.
  rewrite get_available_countries_eq, get_statistics_eq, Hb, Hp, Hp'.
  pose proof (find_where_clause job (Some c) (days_to_hire_statistics d))
    as Hfind. simpl in Hfind. rewrite Hc in Hfind.
  split.
  - intros (l & [= <-] & Hin). simpl in Hin.
    apply in_select_countries, Hfind in Hin as [row F].
    rewrite F. eexists. split; [reflexivity|].
    apply find_some in F as [_ Hw].
    apply where_clause_sound in Hw as [Hj Hcc]. simpl in Hcc.
    rewrite Hc in Hcc. auto.
  - intros (r & Hr & _).
    destruct (find _ _) as [row|] eqn:F; [|discriminate].
    eexists. split; [reflexivity|]. simpl.
    apply in_select_countries, Hfind. eauto.
Qed.

Lemma listed_country_is_served_witness :
  (exists l, get_available_countries "job1" sample.served [] = Returned l /\
             In "US" (available_countries l)) <->
  (exists r, get_statistics "job1" (Some "US") sample.served [] = Returned r /\
             standard_job_id r = "job1" /\ country_code r = Some "US").
Proof.
  apply (listed_country_is_served "job1" "US" sample.served [] []);
    reflexivity.
Defined.

(** X4.  A job for which [get_statistics] returns a record, with or without
    a country code, is in the list of [get_available_jobs]. *)
Theorem served_job_is_listed (job : string) (cc : option string)
  (d : Database) (p p' : FaultPlan) (r : StatisticsResponse) :
  get_statistics job cc d p = Returned r ->
  fault_at 0 p' = None ->
  exists l, get_available_jobs d p' = Returned l /\
            In job (available_jobs l) /\ (0 < jobs_count l)%nat.
Proof.
  rewrite get_statistics_eq, get_available_jobs_eq. intros H ->.
  destruct (blank job); [discriminate|].
  destruct (fault_at 0 p); [discriminate|].
  destruct (find _ _) as [row|] eqn:F; [|discriminate].
  apply find_some in F as [Hin Hw].
  apply where_clause_sound in Hw as [Hj _].
  assert (Hl : In job (select_jobs (days_to_hire_statistics d)))
    by (apply in_select_jobs; eauto).
  eexists. split; [reflexivity|]. simpl. split; [assumption|].
  destruct (select_jobs (days_to_hire_statistics d));
    [contradiction|simpl; lia].
Qed.

Lemma served_job_is_listed_witness :
  exists l, get_available_jobs sample.served [] = Returned l /\
            In "job1" (available_jobs l) /\ (0 < jobs_count l)%nat.
Proof.
  apply (served_job_is_listed "job1" None sample.served [] []
           (response_of sample.global_row)); reflexivity.
Defined.

(** X5.  A row whose country code is the empty string is listed and never
    served: [get_available_countries] has the empty string in its list when
    the job has such a row, and no call of [get_statistics] returns a record
    whose [country_code] is the empty string. *)
Theorem empty_country_listed_not_served (job : string) (d : Database) :
  (forall p row,
     fault_at 0 p = None ->
     In row (days_to_hire_statistics d) ->
     row_standard_job_id row = job ->
     row_country_code row = Some EmptyString ->
     exists l, get_available_countries job d p = Returned l /\
               In EmptyString (available_countries l)) /\
  (forall cc p r,
     get_statistics job cc d p = Returned r ->
     country_code r <> Some EmptyString).
Proof.
  split.
  - intros p row Hp Hin Hj Hc. rewrite get_available_countries_eq, Hp.
    eexists. split; [reflexivity|]. simpl.
    apply in_select_countries. eauto.
  - intros cc p r. rewrite get_statistics_eq.
    destruct (blank job); [discriminate|].
    destruct (fault_at 0 p); [discriminate|].
    destruct (find _ _) as [row|] eqn:F; [|discriminate].
    intros [= <-]. apply find_some in F as [_ Hw].
    apply where_clause_sound in Hw as [_ Hc]. simpl. rewrite Hc.
    destruct cc as [[|a c]|]; simpl; discriminate.
Qed.

End LookupFacts.

(* ===================================================================== *)
(** * More on the aggregation run                                         *)
(* ===================================================================== *)

Section QueryInput.
Context {K : Type}.
Variable key_of : db.JobPosting -> K.
Variables same_key key_eq key_leb : K -> K -> bool.

Lemma with_days_has_days (tbl : list db.JobPosting) :
  sql.with_days key_of (filter db.has_days tbl) = sql.with_days key_of tbl.
Proof.
  induction tbl as [|p tbl IH]; simpl; [reflexivity|].
  unfold db.has_days at 1.
  destruct (db.days_to_hire p) eqn:E; simpl; rewrite ?E, IH; reflexivity.
Qed.

(** The query reads the postings through [with_days] only. *)
Lemma stats_query_input (min_postings : Z) (t1 t2 : list db.JobPosting) :
  sql.with_days key_of t1 = sql.with_days key_of t2 ->
  sql.stats_query key_of same_key key_eq key_leb min_postings t1
  = sql.stats_query key_of same_key key_eq key_leb min_postings t2.
Proof.
  intros H. unfold sql.stats_query, sql.joined, sql.filtered, sql.ranked.
  now rewrite H.
Qed.

(** Without a partner in [filtered], the rows of a key have no average. *)
Hypothesis same_key_spec : forall a b, same_key a b = true <-> a = b.

Lemma stats_query_no_partner (min_postings : Z) (tbl : list db.JobPosting)
  (s : sql.StatsRow) :
  In s (sql.stats_query key_of same_key key_eq key_leb min_postings tbl) ->
  (forall f, In f (sql.filtered key_of same_key tbl) ->
             key_eq (sql.res_key s) (sql.key f) = false) ->
  sql.res_avg_days s = None.
Proof.
  intros H Hne.
  apply (in_stats_query key_of same_key key_eq key_leb same_key_spec) in H
    as (g & -> & _ & _).
  simpl in *. unfold sql.avg.
  rewrite non_null_nil; [reflexivity|].
  intros x Hx. apply in_map_iff in Hx as ([r f] & <- & Hin).
  apply filter_In in Hin as [Hin Hg].
  apply (same_group_spec same_key same_key_spec) in Hg. subst g. simpl in *.
  destruct f as [f|]; [|reflexivity].
  apply in_left_join in Hin as [_ [Hf Hon]].
  unfold sql.on_clause in Hon. rewrite (Hne f Hf) in Hon. discriminate.
Qed.

(** The only row of a partition of one row is in the first decile. *)
Lemma window_single (all seen rest : list (K * Z)) (r : sql.Ranked) :
  all = rev seen ++ rest ->
  In r (sql.window same_key all seen rest) ->
  List.length (sql.partition_of same_key (sql.key r) all) = 1%nat ->
  sql.decile_low r = 1%nat.
Proof.
  revert seen. induction rest as [|[k d] rest IH]; simpl; intros seen Hall Hin.
  - contradiction.
  - destruct Hin as [<-|Hin].
    + simpl. intros Hlen. rewrite Hlen.
      assert (Hparts :
        sql.partition_of same_key k all
        = sql.partition_of same_key k (rev seen)
          ++ d :: sql.partition_of same_key k rest).
      { rewrite Hall. unfold sql.partition_of.
        rewrite filter_app, map_app. simpl.
        rewrite (proj2 (same_key_spec k k) eq_refl). reflexivity. }
      rewrite Hparts in Hlen |- *. rewrite length_app in Hlen. simpl in Hlen.
      assert (Hseen : sql.partition_of same_key k seen = []).
      { assert (H0 : List.length (sql.partition_of same_key k (rev seen))
                     = 0%nat) by lia.
        unfold sql.partition_of in H0.
        rewrite length_map, filter_rev, length_rev in H0.
        apply length_zero_iff_nil. unfold sql.partition_of.
        now rewrite length_map. }
      assert (Hrev : sql.partition_of same_key k (rev seen) = []).
      { apply length_zero_iff_nil. lia. }
      assert (Hrest : sql.partition_of same_key k rest = []).
      { apply length_zero_iff_nil. lia. }
      rewrite Hseen, Hrev, Hrest. simpl.
      unfold sql.count_if. simpl. rewrite Z.ltb_irrefl. reflexivity.
    + apply (IH ((k, d) :: seen)); [|assumption].
      simpl. now rewrite <- app_assoc.
Qed.

End QueryInput.

(* ===================================================================== *)
(** * The two percentiles of a group                                      *)
(* ===================================================================== *)

Section PercentileFacts.

Lemma sorted_nth (s : list Z) (i j : nat) :
  StronglySorted (fun a b => Z.leb a b = true) s ->
  (i <= j < List.length s)%nat ->
  nth i s 0 <= nth j s 0.
Proof.
  intros Hs. revert i j. induction Hs as [|a s Hs IH Ha]; simpl; intros i j H.
  - lia.
  - destruct i as [|i], j as [|j]; try lia.
    + rewrite Forall_forall in Ha. apply Z.leb_le, Ha, nth_In. lia.
    + apply IH. lia.
Qed.

Lemma order_by_Z_sorted (xs : list Z) :
  StronglySorted (fun a b => Z.leb a b = true) (sql.order_by Z.leb xs).
Proof.
  apply order_by_sorted.
  - intros a b. rewrite !Z.leb_le. lia.
  - intros a b c. rewrite !Z.leb_le. lia.
Qed.

Lemma length_order_by {A} (leb : A -> A -> bool) (l : list A) :
  List.length (sql.order_by leb l) = List.length l.
Proof. apply Permutation_length, order_by_perm. Qed.

(** The interpolated value lies between the two order statistics it is
    taken from. *)
Lemma interpolation_bounds (lo hi : Z) (pos : Q) :
  lo <= hi ->
  (inject_Z lo
   <= inject_Z lo + (pos - inject_Z (Qfloor pos)) * inject_Z (hi - lo)
   <= inject_Z hi)%Q.
Proof.
  intros H.
  pose proof (Qfloor_le pos) as Hf.
  pose proof (Qlt_floor pos) as Hc.
  rewrite inject_Z_plus in Hc.
  assert (Hd : (0 <= inject_Z (hi - lo))%Q).
  { change 0%Q with (inject_Z 0). rewrite <- Zle_Qle. lia. }
  assert (He : (inject_Z hi == inject_Z lo + inject_Z (hi - lo))%Q).
  { rewrite <- inject_Z_plus. now replace (lo + (hi - lo)) with hi by lia. }
  rewrite He.
  set (D := inject_Z (hi - lo)) in *. set (F := inject_Z (Qfloor pos)) in *.
  set (L := inject_Z lo) in *. change (inject_Z 1) with 1%Q in Hc.
  split; nra.
Qed.

Lemma Qfloor_tenths (k m : Z) :
  Qfloor ((k # 10) * inject_Z m) = (k * m) / 10.
Proof. unfold Qfloor, Qmult, inject_Z. simpl. reflexivity. Qed.

Lemma Qceiling_tenths (k m : Z) :
  Qceiling ((k # 10) * inject_Z m) = - ((- (k * m)) / 10).
Proof. unfold Qceiling, Qfloor, Qmult, Qopp, inject_Z. simpl. reflexivity. Qed.

Lemma Qred_le (x y : Q) : (x <= y)%Q -> (Qred x <= Qred y)%Q.
Proof. intros H. now rewrite !Qred_correct. Qed.

(** Over the same values, the 10th percentile is at most the 90th. *)
Lemma percentile_cont_monotone (xs : list Z) (a b : Q) :
  sql.percentile_cont (1 # 10) xs = Some a ->
  sql.percentile_cont (9 # 10) xs = Some b ->
  (a <= b)%Q.
Proof.
  unfold sql.percentile_cont. destruct xs as [|x xs']; [discriminate|].
  set (xs := x :: xs').
  pose proof (order_by_Z_sorted xs) as Hs.
  pose proof (length_order_by Z.leb xs) as Hlen.
  set (s := sql.order_by Z.leb xs) in *.
  assert (Hpos : (0 < List.length s)%nat) by (rewrite Hlen; simpl; lia).
  set (m := Z.of_nat (List.length s) - 1).
  assert (Hm : 0 <= m) by (unfold m; lia).
  cbv zeta. fold s. fold m. intros Ha Hb.
  apply (f_equal (fun o => match o with Some v => v | None => 0%Q end))
    in Ha, Hb.
  cbv beta iota in Ha, Hb. subst a b. apply Qred_le.
  pose proof (Qfloor_tenths 1 m) as Ef1.
  pose proof (Qceiling_tenths 1 m) as Ec1.
  pose proof (Qfloor_tenths 9 m) as Ef9.
  pose proof (Qceiling_tenths 9 m) as Ec9.
  rewrite Z.mul_1_l in Ef1, Ec1.
  set (pos1 := ((1 # 10) * inject_Z m)%Q) in *.
  set (pos9 := ((9 # 10) * inject_Z m)%Q) in *.
  assert (Hidx : forall i j : Z,
            0 <= i <= j -> j <= m ->
            nth (Z.to_nat i) s 0 <= nth (Z.to_nat j) s 0).
  { intros i j Hij Hj. apply sorted_nth; [assumption|]. unfold m in Hj. lia. }
  destruct (Z.eq_dec m 1) as [E|E].
  - (* two values: both percentiles lie between them *)
    assert (F1 : Qfloor pos1 = 0) by (rewrite Ef1, E; reflexivity).
    assert (C1 : Qceiling pos1 = 1) by (rewrite Ec1, E; reflexivity).
    assert (F9 : Qfloor pos9 = 0) by (rewrite Ef9, E; reflexivity).
    assert (C9 : Qceiling pos9 = 1) by (rewrite Ec9, E; reflexivity).
    rewrite F1, C1, F9, C9.
    assert (P1 : (pos1 == 1 # 10)%Q) by (unfold pos1; rewrite E; reflexivity).
    assert (P9 : (pos9 == 9 # 10)%Q) by (unfold pos9; rewrite E; reflexivity).
    rewrite P1, P9.
    assert (H01 : nth (Z.to_nat 0) s 0 <= nth (Z.to_nat 1) s 0).
    { apply (Hidx 0 1); lia. }
    assert (Hd : (0 <= inject_Z (nth (Z.to_nat 1) s 0%Z
                                 - nth (Z.to_nat 0) s 0%Z))%Q).
    { change 0%Q with (inject_Z 0). rewrite <- Zle_Qle. lia. }
    set (D := inject_Z (nth (Z.to_nat 1) s 0 - nth (Z.to_nat 0) s 0)) in *.
    set (U := inject_Z (nth (Z.to_nat 0) s 0)).
    change (inject_Z 0) with 0%Q. lra.
  - assert (Hc1 : 0 <= Qfloor pos1 <= Qceiling pos1) by
      (rewrite Ef1, Ec1; clear - Hm; Z.div_mod_to_equations; lia).
    assert (Hmid : Qceiling pos1 <= Qfloor pos9) by
      (rewrite Ef9, Ec1; clear - Hm E; Z.div_mod_to_equations; lia).
    assert (Hc9 : Qfloor pos9 <= Qceiling pos9 <= m) by
      (rewrite Ef9, Ec9; clear - Hm; Z.div_mod_to_equations; lia).
    destruct (interpolation_bounds _ _ pos1
                (Hidx _ _ Hc1 ltac:(lia))) as [_ Hup].
    destruct (interpolation_bounds _ _ pos9
                (Hidx (Qfloor pos9) (Qceiling pos9) ltac:(lia) (proj2 Hc9)))
      as [Hdown _].
    eapply Qle_trans; [exact Hup|].
    eapply Qle_trans; [|exact Hdown].
    rewrite <- Zle_Qle. apply Hidx; lia.
Qed.

End PercentileFacts.

Section RunExtras.
Import py db cli.

Lemma insert_rows_in (n : nat) (objs : list DaysToHireStatistics)
  (rows : list StatisticsRow) (r : StatisticsRow) :
  insert_rows n objs = Some rows -> In r rows ->
  exists o m, In o objs /\ insert_row m o = Some r.
Proof.
  revert n rows. induction objs as [|o objs IH]; simpl; intros n rows.
  - intros [= <-] [].
  - destruct (insert_row n o) as [r0|] eqn:Er; [|discriminate].
    destruct (insert_rows (S n) objs) as [rs|] eqn:Ers; [|discriminate].
    intros [= <-] [<-|Hin]; [eauto|].
    destruct (IH _ _ Ers Hin) as (o' & m & Ho' & Hm). eauto.
Qed.

(** A run that meets no fault and computes an object without an average
    raises at the final commit and leaves the summary table empty. *)
Lemma main_rejected (d : Database) (p : FaultPlan) (min_postings : Z)
  (o : DaysToHireStatistics) :
  fault_free p = true ->
  In o (computed min_postings (job_posting d)) ->
  obj_avg_days o = None ->
  main d p min_postings = (Raised IntegrityError, rejected d min_postings).
Proof.
  intros Hp Hin Ho. rewrite main_eq. unfold fault_free in Hp.
  destruct (fault_at 0 p); [discriminate|].
  destruct (fault_at 1 p); [discriminate|].
  destruct (fault_at 2 p); [discriminate|].
  destruct (fault_at 3 p); [discriminate|].
  destruct (fault_at 4 p); [discriminate|].
  destruct (insert_rows _ _) as [rows|] eqn:E; [|reflexivity].
  apply insert_rows_keys in E as [_ Havg]. now apply Havg in Hin.
Qed.

Lemma completed_row_number (d d' : Database)
  (p : FaultPlan) (min_postings : Z) (row : StatisticsRow) :
  main d p min_postings = (Returned tt, d') ->
  In row (days_to_hire_statistics d') ->
  0 < row_job_postings_number row /\
  min_postings <= row_job_postings_number row /\
  row_job_postings_number row
  = match row_country_code row with
    | Some cc => country_postings (row_standard_job_id row) cc (job_posting d)
    | None => job_postings (row_standard_job_id row) (job_posting d)
    end.
Proof.
  intros H Hrow. apply main_returned in H as [_ H].
  destruct (insert_rows_in _ _ _ _ H Hrow) as (o & m & Ho & Hm).
  apply insert_row_key in Hm as (Hk & Havg & ->).
  unfold row_key, obj_key in Hk. injection Hk as -> ->.
  unfold computed in Ho. apply in_app_or in Ho as [Ho|Ho];
    apply in_map_iff in Ho as (s & <- & Hs); simpl in *.
  - pose proof (in_map (@sql.res_key _) _ _ Hs) as Hkey.
    apply country_query_keys in Hkey as [Hd Hmin].
    apply (stats_query_total_count _ _ _ _ country_same_spec) in Hs as Ht.
    destruct Ht as [Ht _]. rewrite Ht.
    assert (Hpos : 0 < sql.partition_size country_key country_same
                         (sql.res_key s) (job_posting d)).
    { apply partition_inhabited; [|assumption].
      intros a. now apply country_same_spec. }
    destruct (sql.res_key s) as [job [cc|]] eqn:Ek; simpl.
    + rewrite <- country_partition_size. auto.
    + exfalso. apply Havg.
      eapply (stats_query_unjoined _ _ _ _ country_same_spec); [exact Hs|].
      intros k'. rewrite Ek. apply country_eq_null.
  - pose proof (in_map (@sql.res_key _) _ _ Hs) as Hkey.
    apply global_query_keys in Hkey as [Hd Hmin].
    apply (stats_query_total_count standard_job_id String.eqb) in Hs as Ht;
      [|intros a b; apply String.eqb_eq].
    destruct Ht as [Ht _]. rewrite Ht, <- global_partition_size.
    split; [|auto].
    apply partition_inhabited; [apply String.eqb_refl|assumption].
Qed.

(** X6.  After a run that completes, [job_postings_number] of every row is
    the number of postings of its partition before trimming: those of the
    job in the country for a row with a country code, all those of the job
    for a global row (postings without [days_to_hire] not counted); it is
    positive and at least [min_postings]. *)
Theorem postings_number_is_partition_total (d d' : Database)
  (p : FaultPlan) (min_postings : Z) (row : StatisticsRow) :
  main d p min_postings = (Returned tt, d') ->
  In row (days_to_hire_statistics d') ->
  0 < row_job_postings_number row /\
  min_postings <= row_job_postings_number row /\
  row_job_postings_number row
  = match row_country_code row with
    | Some cc => country_postings (row_standard_job_id row) cc (job_posting d)
    | None => job_postings (row_standard_job_id row) (job_posting d)
    end.
Proof. apply completed_row_number. Qed.

Lemma postings_number_is_partition_total_witness :
  let row := mkStatisticsRow 2 "job2" (Some "DE") 19 55 91 10 in
  0 < row_job_postings_number row /\
  5 <= row_job_postings_number row /\
  row_job_postings_number row
  = country_postings "job2" "DE"
      (job_posting (sample.stale sample.mixed_postings)).
Proof.
  intros row.
  apply (postings_number_is_partition_total
           (sample.stale sample.mixed_postings)
           (snd (main (sample.stale sample.mixed_postings) [] 5)) [] 5 row).
  - vm_compute. reflexivity.
  - vm_compute. left. reflexivity.
Defined.

Lemma filter_all_false {A} (q : A -> bool) (l : list A) :
  (forall a, In a l -> q a = false) -> filter q l = [].
Proof.
  induction l as [|a l IH]; simpl; intros H; [reflexivity|].
  rewrite (H a (or_introl eq_refl)). apply IH.
  intros b Hb. apply H. now right.
Qed.

Lemma computed_has_days (min_postings : Z) (tbl : list JobPosting) :
  computed min_postings (filter has_days tbl) = computed min_postings tbl.
Proof.
  unfold computed, COUNTRY_STATS_QUERY, GLOBAL_STATS_QUERY.
  rewrite (stats_query_input country_key country_same country_eq country_leb
             min_postings (filter has_days tbl) tbl)
    by apply with_days_has_days.
  rewrite (stats_query_input standard_job_id String.eqb String.eqb String.leb
             min_postings (filter has_days tbl) tbl)
    by apply with_days_has_days.
  reflexivity.
Qed.

(** X7.  Postings without [days_to_hire] play no part: a run over the
    postings that have one ends in the same way, by return or by the same
    exception, and leaves the same summary table as the run over all
    postings. *)
Theorem postings_without_days_are_ignored (d : Database) (p : FaultPlan)
  (min_postings : Z) :
  let d0 := {| job_posting := filter has_days (job_posting d);
               days_to_hire_statistics := days_to_hire_statistics d;
               id_seq := id_seq d |} in
  fst (main d0 p min_postings) = fst (main d p min_postings) /\
  days_to_hire_statistics (snd (main d0 p min_postings))
  = days_to_hire_statistics (snd (main d p min_postings)).
Proof.
  intros d0. rewrite !main_eq. unfold d0. cbn [job_posting id_seq].
  rewrite computed_has_days.
  destruct (fault_at 0 p); [split; reflexivity|].
  destruct (fault_at 1 p); [split; reflexivity|].
  destruct (fault_at 2 p); [split; reflexivity|].
  destruct (fault_at 3 p); [split; reflexivity|].
  destruct (fault_at 4 p); [split; reflexivity|].
  destruct (insert_rows _ _); split; reflexivity.
Qed.

(** X8.  When no posting has [days_to_hire] (an empty [job_posting]
    included), a run that meets no fault completes, whatever
    [min_postings], and leaves the summary table empty. *)
Theorem run_without_days_empties_summary (d : Database) (p : FaultPlan)
  (min_postings : Z) :
  fault_free p = true ->
  (forall q, In q (job_posting d) -> days_to_hire q = None) ->
  main d p min_postings = (Returned tt, emptied d).
Proof.
  intros Hp Hnone.
  assert (E : filter has_days (job_posting d) = []).
  { apply filter_all_false. intros q Hq. unfold has_days.
    now rewrite (Hnone q Hq). }
  rewrite main_eq, <- computed_has_days, E. unfold fault_free in Hp.
  destruct (fault_at 0 p); [discriminate|].
  destruct (fault_at 1 p); [discriminate|].
  destruct (fault_at 2 p); [discriminate|].
  destruct (fault_at 3 p); [discriminate|].
  destruct (fault_at 4 p); [discriminate|].
  reflexivity.
Qed.

Lemma run_without_days_empties_summary_witness :
  main (sample.stale [mkJobPosting "z0" "t" "job9" (Some "US") None]) [] (-1)
  = (Returned tt,
     emptied (sample.stale [mkJobPosting "z0" "t" "job9" (Some "US") None])).
Proof.
  apply run_without_days_empties_summary; [reflexivity|].
  intros q [<-|[]]. reflexivity.
Defined.

(** X9.  With [min_postings] at most 1, a job that has exactly one posting
    with [days_to_hire] stops the run: trimming leaves nothing of a partition
    of one row, the average of its global record is NULL, and a run that
    meets no fault raises at the final commit; the summary table is left
    empty and the postings are as they were. *)
Theorem single_posting_aborts_run (d : Database) (p : FaultPlan)
  (min_postings : Z) (job : string) :
  fault_free p = true ->
  min_postings <= 1 ->
  job_postings job (job_posting d) = 1 ->
  fst (main d p min_postings) = Raised IntegrityError /\
  days_to_hire_statistics (snd (main d p min_postings)) = [] /\
  job_posting (snd (main d p min_postings)) = job_posting d.
Proof.
  intros Hp Hmin Hone.
  assert (Hspec : forall a b, String.eqb a b = true <-> a = b)
    by (intros; apply String.eqb_eq).
  rewrite <- global_partition_size in Hone.
  assert (Hkey : In job (map (@sql.res_key _)
                   (GLOBAL_STATS_QUERY min_postings (job_posting d)))).
  { apply global_query_keys. rewrite Hone. split; [|assumption].
    apply (partition_empty standard_job_id String.eqb);
      [intros a b; apply Hspec|]. rewrite Hone. lia. }
  apply in_map_iff in Hkey as (s & Hs & Hin).
  rewrite (main_rejected d p min_postings (global_record s) Hp);
    [repeat split| |].
  - unfold computed. apply in_or_app. right. now apply in_map.
  - simpl.
    apply (stats_query_no_partner standard_job_id String.eqb String.eqb
             String.leb Hspec min_postings (job_posting d) s Hin).
    intros f Hf. rewrite Hs.
    destruct (String.eqb job (sql.key f)) eqn:E; [exfalso|reflexivity].
    apply String.eqb_eq in E.
    unfold sql.filtered in Hf. apply filter_In in Hf as [Hf Hkeep].
    assert (Hlow : sql.decile_low f = 1%nat).
    { apply (window_single String.eqb Hspec
               (sql.with_days standard_job_id (job_posting d)) []
               (sql.with_days standard_job_id (job_posting d)));
        [reflexivity|exact Hf|].
      rewrite <- E. unfold sql.partition_size in Hone. lia. }
    rewrite Hlow in Hkeep. discriminate.
Qed.

Lemma single_posting_aborts_run_witness :
  let d := sample.stale (sample.posting "u0" "job7" (Some "US") 30
                         :: sample.ten_postings) in
  fst (main d [] 1) = Raised IntegrityError /\
  days_to_hire_statistics (snd (main d [] 1)) = [] /\
  job_posting (snd (main d [] 1)) = job_posting d.
Proof.
  intros d.
  apply (single_posting_aborts_run d [] 1 "job7");
    [reflexivity|lia|reflexivity].
Defined.

(** X10.  A job with [min_postings] or more postings that have no country
    (and at least one) stops the run: the per-country query returns a record
    for them whose average is NULL, and a run that meets no fault raises at
    the final commit; the summary table is left empty and the postings are as
    they were. *)
Theorem countryless_postings_abort_run (d : Database) (p : FaultPlan)
  (min_postings : Z) (job : string) :
  fault_free p = true ->
  0 < countryless_postings job (job_posting d) ->
  min_postings <= countryless_postings job (job_posting d) ->
  fst (main d p min_postings) = Raised IntegrityError /\
  days_to_hire_statistics (snd (main d p min_postings)) = [] /\
  job_posting (snd (main d p min_postings)) = job_posting d.
Proof.
  intros Hp Hpos Hmin.
  rewrite <- countryless_partition_size in Hpos, Hmin.
  apply partition_empty in Hpos; [|intros a b; apply country_same_spec].
  assert (Hk : In (job, None)
                 (map (@sql.res_key _)
                    (COUNTRY_STATS_QUERY min_postings (job_posting d)))).
  { apply country_query_keys. auto. }
  apply in_map_iff in Hk as (s & Hs & Hin).
  rewrite (main_rejected d p min_postings (country_record s) Hp);
    [repeat split| |].
  - unfold computed. apply in_or_app. left. now apply in_map.
  - eapply country_query_null_country; [apply in_map; exact Hin|].
    simpl. now rewrite Hs.
Qed.

Lemma countryless_postings_abort_run_witness :
  let d := sample.stale sample.countryless_postings in
  fst (main d [] 5) = Raised IntegrityError /\
  days_to_hire_statistics (snd (main d [] 5)) = [] /\
  job_posting (snd (main d [] 5)) = job_posting d.
Proof.
  intros d.
  apply (countryless_postings_abort_run d [] 5 "job4");
    [reflexivity|reflexivity|vm_compute; discriminate].
Defined.

(** X11.  Raising the threshold only removes records: every object computed
    with a threshold is computed, with the same values, with any lower
    threshold, and an object is dropped exactly when its
    [job_postings_number] is below the higher threshold. *)
Theorem higher_threshold_drops_records (lo hi : Z) (tbl : list JobPosting)
  (o : DaysToHireStatistics) :
  lo <= hi ->
  In o (computed hi tbl) <->
  In o (computed lo tbl) /\ hi <= obj_job_postings_number o.
Proof.
  intros Hle.
  assert (Hspec : forall a b, String.eqb a b = true <-> a = b)
    by (intros; apply String.eqb_eq).
  unfold computed, COUNTRY_STATS_QUERY, GLOBAL_STATS_QUERY.
  rewrite !in_app_iff, !in_map_iff. split.
  - intros [(s & <- & Hs)|(s & <- & Hs)]; simpl.
    + apply (in_stats_query _ _ _ _ country_same_spec) in Hs
        as (g & -> & Hg & Hmin).
      split; [|exact Hmin]. left. eexists. split; [reflexivity|].
      apply (in_stats_query _ _ _ _ country_same_spec).
      exists g. repeat split; [assumption|lia].
    + apply (in_stats_query _ _ _ _ Hspec) in Hs as (g & -> & Hg & Hmin).
      split; [|exact Hmin]. right. eexists. split; [reflexivity|].
      apply (in_stats_query _ _ _ _ Hspec).
      exists g. repeat split; [assumption|lia].
  - intros [[(s & <- & Hs)|(s & <- & Hs)] Hhi]; simpl in Hhi.
    + left. exists s. split; [reflexivity|].
      apply (in_stats_query _ _ _ _ country_same_spec) in Hs
        as (g & -> & Hg & Hmin).
      apply (in_stats_query _ _ _ _ country_same_spec).
      exists g. repeat split; assumption.
    + right. exists s. split; [reflexivity|].
      apply (in_stats_query _ _ _ _ Hspec) in Hs as (g & -> & Hg & Hmin).
      apply (in_stats_query _ _ _ _ Hspec).
      exists g. repeat split; assumption.
Qed.

Lemma higher_threshold_drops_records_witness :
  let o := mkDaysToHireStatistics None "job2" (Some "DE")
             (Some 19%Q) (Some 55%Q) (Some 91%Q) 10 in
  In o (computed 10 sample.mixed_postings) <->
  In o (computed 4 sample.mixed_postings) /\
  10 <= obj_job_postings_number o.
Proof.
  intros o. apply (higher_threshold_drops_records 4 10). lia.
Defined.

(** X12.  A completed run overwrites: the records it leaves depend on the
    postings and the threshold only, not on what the summary table held
    before nor on the sequence. *)
Theorem completed_run_overwrites (d1 d2 d1' d2' : Database)
  (p1 p2 : FaultPlan) (min_postings : Z) :
  job_posting d1 = job_posting d2 ->
  main d1 p1 min_postings = (Returned tt, d1') ->
  main d2 p2 min_postings = (Returned tt, d2') ->
  map record_of (days_to_hire_statistics d1')
  = map record_of (days_to_hire_statistics d2').
Proof.
  intros Hf H1 H2.
  apply main_returned in H1 as [_ R1], H2 as [_ R2]. rewrite Hf in R1.
  destruct (insert_rows_any_id _ (id_seq d2) _ _ R1) as (rows & E & Hr).
  rewrite R2 in E. injection E as <-. now symmetry.
Qed.

Lemma completed_run_overwrites_witness :
  map record_of
    (days_to_hire_statistics
       (snd (main (sample.stale sample.ten_postings) [] 5)))
  = map record_of
      (days_to_hire_statistics
         (snd (main (mkDatabase sample.ten_postings [] 40) [None] 5))).
Proof.
  apply (completed_run_overwrites
           (sample.stale sample.ten_postings)
           (mkDatabase sample.ten_postings [] 40) _ _ [] [None] 5);
    vm_compute; reflexivity.
Defined.

Lemma insert_row_values (m : nat) (o : DaysToHireStatistics)
  (r : StatisticsRow) :
  insert_row m o = Some r ->
  obj_min_days o = Some (row_min_days r) /\
  obj_max_days o = Some (row_max_days r).
Proof.
  unfold insert_row.
  destruct (obj_min_days o), (obj_avg_days o), (obj_max_days o);
    try discriminate.
  intros [= <-]. split; reflexivity.
Qed.

Lemma computed_min_max (min_postings : Z) (tbl : list JobPosting)
  (o : DaysToHireStatistics) (a b : Q) :
  In o (computed min_postings tbl) ->
  obj_min_days o = Some a -> obj_max_days o = Some b -> (a <= b)%Q.
Proof.
  assert (Hspec : forall x y, String.eqb x y = true <-> x = y)
    by (intros; apply String.eqb_eq).
  unfold computed. rewrite in_app_iff, !in_map_iff.
  intros [(s & <- & Hs)|(s & <- & Hs)]; simpl.
  - apply (in_stats_query _ _ _ _ country_same_spec) in Hs
      as (g & -> & _ & _).
    apply percentile_cont_monotone.
  - apply (in_stats_query _ _ _ _ Hspec) in Hs as (g & -> & _ & _).
    apply percentile_cont_monotone.
Qed.

(** X13.  In every row that a completed run leaves in the summary table,
    [min_days] is at most [max_days]. *)
Theorem min_days_at_most_max_days (d d' : Database) (p : FaultPlan)
  (min_postings : Z) (row : StatisticsRow) :
  main d p min_postings = (Returned tt, d') ->
  In row (days_to_hire_statistics d') ->
  (row_min_days row <= row_max_days row)%Q.
Proof.
  intros H Hrow. apply main_returned in H as [_ H].
  destruct (insert_rows_in _ _ _ _ H Hrow) as (o & m & Ho & Hm).
  apply insert_row_values in Hm as [Hmin Hmax].
  exact (computed_min_max _ _ o _ _ Ho Hmin Hmax).
Qed.

Lemma min_days_at_most_max_days_witness :
  (row_min_days (mkStatisticsRow 1 "j" (Some "US") 16 22 34 5)
   <= row_max_days (mkStatisticsRow 1 "j" (Some "US") 16 22 34 5))%Q.
Proof.
  apply (min_days_at_most_max_days sample.tied
           (snd (main sample.tied [] 5)) [] 5).
  - vm_compute. reflexivity.
  - vm_compute. left. reflexivity.
Defined.

End RunExtras.

Section ServedAfterRun.
Import py db cli.

(** X14.  What the API serves after a completed run.  For a
    [standard_job_id] that is not blank and a datastore that answers,
    [get_statistics] returns a record exactly for the keys that reach the
    threshold in the postings: with a non-empty country code, when the job
    has postings in that country and at least [min_postings] of them; without
    one (or with the empty string), when the job has postings and at least
    [min_postings] of them.  The record is of the requested key and its
    [job_postings_number] is that number of postings; for every other key
    the answer is 404. *)
Theorem served_after_completed_run (d d' : Database) (p p' : FaultPlan)
  (min_postings : Z) (job : string) (cc : option string) :
  main d p min_postings = (Returned tt, d') ->
  blank job = false ->
  fault_at 0 p' = None ->
  let key := if truthy_opt cc then cc else None in
  let n := match key with
           | Some c => country_postings job c (job_posting d)
           | None => job_postings job (job_posting d)
           end in
  (0 < n /\ min_postings <= n ->
   exists r, api.get_statistics job cc d' p' = Returned r /\
             api.standard_job_id r = job /\ api.country_code r = key /\
             api.job_postings_number r = n) /\
  (~ (0 < n /\ min_postings <= n) ->
   api.get_statistics job cc d' p'
   = Raised (HTTPException 404 (api.not_found_detail job cc))).
Proof.
  intros Hrun Hb Hp' key n.
  rewrite get_statistics_eq, Hb, Hp'.
  pose proof (main_returned _ _ _ _ Hrun) as [_ Hins].
  pose proof (insert_rows_keys _ _ _ Hins) as [Hk Havg].
  assert (Hin : In (job, key) (map row_key (days_to_hire_statistics d'))
                <-> 0 < n /\ min_postings <= n).
  { rewrite Hk. unfold n. destruct key as [c|].
    - apply computed_country_key.
    - now apply computed_global_key. }
  split.
  - intros Hn. apply Hin in Hn. apply in_map_iff in Hn as (row & Hkey & Hrow).
    unfold row_key in Hkey. injection Hkey as Hj Hc.
    destruct (proj1 (find_where_clause job cc (days_to_hire_statistics d')))
      as [row' F]; [exists row; auto|].
    rewrite F. apply find_some in F as [Hin' Hw].
    apply where_clause_sound in Hw as [Hj' Hc'].
    exists (api.response_of row'). split; [reflexivity|]. simpl.
    split; [assumption|]. split; [assumption|].
    destruct (completed_row_number _ _ _ _ _ Hrun Hin') as (_ & _ & ->).
    rewrite Hj', Hc'. reflexivity.
  - intros Hn.
    destruct (find _ _) as [row|] eqn:F; [exfalso|reflexivity].
    apply find_some in F as [Hin' Hw].
    apply where_clause_sound in Hw as [Hj Hc].
    apply Hn, Hin, in_map_iff. exists row. split; [|assumption].
    unfold row_key. now rewrite Hj, Hc.
Qed.

Lemma served_after_completed_run_witness :
  let d' := snd (main (sample.stale sample.mixed_postings) [] 5) in
  let n := country_postings "job2" "DE"
             (job_posting (sample.stale sample.mixed_postings)) in
  (0 < n /\ 5 <= n ->
   exists r, api.get_statistics "job2" (Some "DE") d' [] = Returned r /\
             api.standard_job_id r = "job2" /\
             api.country_code r = Some "DE" /\
             api.job_postings_number r = n) /\
  (~ (0 < n /\ 5 <= n) ->
   api.get_statistics "job2" (Some "DE") d' []
   = Raised (HTTPException 404 (api.not_found_detail "job2" (Some "DE")))).
Proof.
  intros d'.
  apply (served_after_completed_run
           (sample.stale sample.mixed_postings) d' [] [] 5 "job2"
           (Some "DE")).
  - vm_compute. reflexivity.
  - reflexivity.
  - reflexivity.
Defined.

End ServedAfterRun.

(* ===================================================================== *)
(** * The loader of job_posting.csv                                       *)
(* ===================================================================== *)

Section StripMore.
Import py.

Lemma lstrip_idempotent (s : string) : lstrip (lstrip s) = lstrip s.
Proof.
  induction s as [|c s IH]; simpl; [reflexivity|].
  destruct (isspace c) eqn:E; [exact IH|]. simpl. now rewrite E.
Qed.

(** Stripping on the left does not uncover whitespace on the right. *)
Lemma rstrip_lstrip (s : string) :
  rstrip s = s -> rstrip (lstrip s) = lstrip s.
Proof.
  induction s as [|c s IH]; simpl; [reflexivity|].
  destruct (isspace c) eqn:E.
  - destruct (rstrip s) as [|a t] eqn:R.
    + discriminate.
    + intros [= Hs]. apply IH. exact Hs.
  - intros H. simpl. rewrite E. exact H.
Qed.

Lemma rstrip_idempotent (s : string) : rstrip (rstrip s) = rstrip s.
Proof.
  induction s as [|c s IH]; simpl; [reflexivity|].
  destruct (rstrip s) as [|a t] eqn:R.
  - destruct (isspace c) eqn:E; simpl; [reflexivity|]. now rewrite E.
  - simpl. simpl in IH. rewrite IH. reflexivity.
Qed.

Lemma strip_idempotent (s : string) : strip (strip s) = strip s.
Proof.
  unfold strip.
  rewrite (rstrip_lstrip (rstrip s) (rstrip_idempotent s)).
  apply lstrip_idempotent.
Qed.

Lemma strip_not_blank (s : string) :
  truthy (strip s) = true -> blank (strip s) = false.
Proof.
  intros H. rewrite <- (strip_idempotent s), strip_truthy in H.
  now apply negb_true_iff in H.
Qed.

End StripMore.

Section LoaderFacts.
Import py db load_data.
Variable int : string -> option Z.

Lemma in_upgrade_job_posting (rows : list CsvRow) (p : JobPosting) :
  In p (upgrade_job_posting int rows) <->
  exists row, In row rows /\ job_posting_of int row = Some p.
Proof.
  induction rows as [|row rows IH]; simpl.
  - split; [contradiction|]. intros (? & [] & _).
  - destruct (job_posting_of int row) as [q|] eqn:E; simpl; rewrite IH.
    + split.
      * intros [<-|(r & Hr & Hp)]; eauto.
      * intros (r & [<-|Hr] & Hp); [left; congruence|eauto].
    + split.
      * intros (r & Hr & Hp). eauto.
      * intros (r & [<-|Hr] & Hp); [congruence|eauto].
Qed.

Lemma missing_false (field : option string) :
  missing field = false ->
  exists s, field = Some s /\ truthy (strip s) = true.
Proof.
  destruct field as [s|]; simpl; [|discriminate].
  intros H. apply orb_false_iff in H as [_ H].
  apply negb_false_iff in H. eauto.
Qed.

Lemma job_posting_of_some (row : CsvRow) (p : JobPosting) :
  job_posting_of int row = Some p ->
  exists i t j,
    csv_id row = Some i /\ csv_title row = Some t /\
    csv_standard_job_id row = Some j /\
    truthy (strip i) = true /\ truthy (strip t) = true /\
    truthy (strip j) = true /\
    p = {| id := strip i; title := strip t; standard_job_id := strip j;
           country_code := country_of (csv_country_code row);
           days_to_hire := days_of int (csv_days_to_hire row) |}.
Proof.
  unfold job_posting_of.
  destruct (missing (csv_id row)) eqn:Mi; [discriminate|].
  destruct (missing (csv_title row)) eqn:Mt; [discriminate|].
  destruct (missing (csv_standard_job_id row)) eqn:Mj; [discriminate|].
  apply missing_false in Mi as (i & -> & Hi), Mt as (t & -> & Ht),
    Mj as (j & -> & Hj).
  intros [= <-]. exists i, t, j. repeat split; assumption.
Qed.

Lemma complete_loaded (row : CsvRow) :
  complete row = match job_posting_of int row with
                 | Some _ => true
                 | None => false
                 end.
Proof.
  unfold complete, job_posting_of.
  destruct (missing (csv_id row)) eqn:Mi; [reflexivity|].
  destruct (missing (csv_title row)) eqn:Mt; [reflexivity|].
  destruct (missing (csv_standard_job_id row)) eqn:Mj; [reflexivity|].
  apply missing_false in Mi as (i & -> & Hi), Mt as (t & -> & Ht),
    Mj as (j & -> & Hj).
  reflexivity.
Qed.

Lemma days_of_loaded (field : option string) :
  days_of int field = loaded_days int field.
Proof.
  unfold days_of, loaded_days. destruct field as [s|]; [|reflexivity].
  rewrite strip_truthy.
  destruct s as [|a s]; simpl; [reflexivity|].
  now destruct (isspace a && blank s).
Qed.


Lemma days_upgrade_job_posting (rows : list CsvRow) :
  map days_to_hire (upgrade_job_posting int rows)
  = map (fun row => loaded_days int (csv_days_to_hire row))
        (filter complete rows).
Proof.
  induction rows as [|row rows IH]; simpl; [reflexivity|].
  rewrite complete_loaded.
  destruct (job_posting_of int row) as [p|] eqn:E; simpl; [|exact IH].
  apply job_posting_of_some in E
    as (i & t & j & _ & _ & _ & _ & _ & _ & ->).
  simpl. now rewrite IH, days_of_loaded.
Qed.

(** The rows whose [days_to_hire] field gives a number are those whose
    posting takes part in the statistics. *)
Lemma has_days_upgrade_job_posting (rows : list CsvRow) :
  filter has_days (upgrade_job_posting int rows)
  = upgrade_job_posting int
      (filter (fun row =>
                 match loaded_days int (csv_days_to_hire row) with
                 | Some _ => true
                 | None => false
                 end) rows).
Proof.
  induction rows as [|row rows IH]; simpl; [reflexivity|].
  destruct (job_posting_of int row) as [p|] eqn:E.
  - pose proof (job_posting_of_some row p E)
      as (i & t & j & _ & _ & _ & _ & _ & _ & Hp).
    assert (Hd : has_days p
                 = match loaded_days int (csv_days_to_hire row) with
                   | Some _ => true
                   | None => false
                   end)
      by (rewrite Hp, <- days_of_loaded; reflexivity).
    simpl. rewrite Hd.
    destruct (loaded_days int (csv_days_to_hire row)); simpl;
      rewrite ?E, IH; reflexivity.
  - destruct (loaded_days int (csv_days_to_hire row)); simpl;
      rewrite ?E, IH; reflexivity.
Qed.

(** X16.  The [country_code] of a loaded posting is NULL, the empty string,
    or a stripped string that is not blank.  A field of whitespace only (or
    an absent one) is stored as NULL, but an empty field is stored as the
    empty string, not as NULL. *)
Theorem loader_country_code (rows : list CsvRow) :
  (forall p, In p (upgrade_job_posting int rows) ->
     match country_code p with
     | None => True
     | Some c => c = EmptyString \/ (blank c = false /\ strip c = c)
     end) /\
  (forall row p,
     job_posting_of int row = Some p ->
     match csv_country_code row with
     | None => country_code p = None
     | Some c =>
         if truthy c
         then country_code p = (if blank c then None else Some (strip c))
         else country_code p = Some EmptyString
     end).
Proof.
  split.
  - intros p Hp. apply in_upgrade_job_posting in Hp as (row & _ & Hp).
    apply job_posting_of_some in Hp as (i & t & j & _ & _ & _ & _ & _ & _ & ->).
    simpl. unfold country_of.
    destruct (csv_country_code row) as [c|]; [|exact I].
    destruct c as [|a c]; simpl truthy; cbv iota; [now left|].
    destruct (truthy (strip (String a c))) eqn:T; [|exact I].
    right. split; [now apply strip_not_blank|apply strip_idempotent].
  - intros row p Hp.
    apply job_posting_of_some in Hp as (i & t & j & _ & _ & _ & _ & _ & _ & ->).
    simpl. unfold country_of.
    destruct (csv_country_code row) as [c|]; [|reflexivity].
    destruct c as [|a c]; simpl truthy; cbv iota; [reflexivity|].
    rewrite strip_truthy. now destruct (blank (String a c)).
Qed.

End LoaderFacts.

Section LoaderLoop.
Import py db load_data.
Variable int : string -> option Z.
Variable refused : list JobPosting -> JobPosting -> bool.

(** A loader that returns has inserted every row it had an INSERT for. *)
Lemma insert_each_some (inserted : list JobPosting) (rows : list CsvRow)
  (ps : list JobPosting) :
  insert_each int refused inserted rows = Some ps ->
  ps = inserted ++ upgrade_job_posting int rows.
Proof.
  revert inserted. induction rows as [|row rows IH]; simpl; intros inserted.
  - intros [= <-]. now rewrite app_nil_r.
  - destruct (job_posting_of int row) as [p|]; [|apply IH].
    destruct (refused inserted p); [discriminate|].
    intros H. apply IH in H. now rewrite <- app_assoc in H.
Qed.



End LoaderLoop.

Section LoaderRun.
Import py db load_data.
Variable int : string -> option Z.
Variable refused : list JobPosting -> JobPosting -> bool.


(** X17.  When the loader returns, no row has been dropped for its
    [days_to_hire]: the postings carry, in the order of the file, NULL for a
    field that is absent, blank or not accepted by [int], and the integer
    otherwise.  The aggregation ignores the postings with NULL: the objects
    it computes from the loaded postings are those it computes after loading
    only the rows whose field gives an integer. *)
Theorem loader_days_to_hire (rows : list CsvRow) (ps : list JobPosting)
  (min_postings : Z) :
  upgrade int refused rows = Some ps ->
  map days_to_hire ps
  = map (fun row => loaded_days int (csv_days_to_hire row))
        (filter complete rows) /\
  forall refused' ps',
    upgrade int refused'
      (filter (fun row =>
                 match loaded_days int (csv_days_to_hire row) with
                 | Some _ => true
                 | None => false
                 end) rows) = Some ps' ->
    cli.computed min_postings ps = cli.computed min_postings ps'.
Proof.
  unfold upgrade. intros H. apply insert_each_some in H. simpl in H.
  subst ps. split; [apply days_upgrade_job_posting|].
  intros refused' ps' H'. apply insert_each_some in H'. simpl in H'.
  subst ps'.
  rewrite <- (computed_has_days min_postings (upgrade_job_posting int rows)).
  now rewrite has_days_upgrade_job_posting.
Qed.

End LoaderRun.

Section LoaderSample.
Import py db load_data.

Lemma loader_days_to_hire_witness :
  let ps := [mkJobPosting "p1" "Engineer" "job1" (Some "US") (Some 30);
             mkJobPosting "p2" "Engineer" "job1" None None] in
  map days_to_hire ps = [Some 30; None] /\
  cli.computed 1 ps
  = cli.computed 1 [mkJobPosting "p1" "Engineer" "job1" (Some "US") (Some 30)].
Proof.
  intros ps.
  destruct (loader_days_to_hire sample.int_of_digits sample.int4_refused
              sample.csv_rows ps 1) as [Hd Hc]; [reflexivity|].
  split; [exact Hd|].
  apply (Hc sample.int4_refused). reflexivity.
Defined.

End LoaderSample.

